(** * Agent orchestration engine: tool registry and tool-use loop

    A shallow embedding of the orchestration code of the multi-agent
    research system: [server.js] (the MCP tool registry and the multi-turn
    tool-use loop of [callClaudeAgent]) and the two serverless variants of
    [callClaudeAgent] ([api/agent.js] and the Brave-search variant).

    The model service, the MCP SDK and the provider processes live outside
    the program; they are the fields of the class [Platform] below, and every
    result holds for all of them. *)

From Stdlib Require Import Ascii.
From stdpp Require Import base gmap strings list pretty.

#[local] Set Warnings "-register-all".

(** * JavaScript values the code inspects *)

Module Js.

(** A JSON value, as [JSON.parse] and the SDKs hand it to the program.
    Numbers are integers; an object keeps its keys in insertion order. *)
Inductive Json : Type :=
| JNull
| JBool (b : bool)
| JNum (z : Z)
| JStr (s : string)
| JArr (items : list Json)
| JObj (fields : list (string * Json)).

(** A thrown [Error]: the handlers of the program read only [.message]. *)
Record JsError : Type := mkError { message : string }.

Definition dquote : ascii := ascii_of_nat 34.
Definition backslash : ascii := ascii_of_nat 92.
Definition newline : string := String (ascii_of_nat 10) "".

Definition hexDigit (n : nat) : ascii :=
  ascii_of_nat (if Nat.ltb n 10 then 48 + n else 87 + n).

(** [QuoteJSONString] of ECMA-262, on one code unit. *)
Definition escapeChar (c : ascii) : string :=
  let n := nat_of_ascii c in
  if Nat.eqb n 34 then String backslash (String dquote "")
  else if Nat.eqb n 92 then String backslash (String backslash "")
  else if Nat.eqb n 8 then String backslash "b"
  else if Nat.eqb n 12 then String backslash "f"
  else if Nat.eqb n 10 then String backslash "n"
  else if Nat.eqb n 13 then String backslash "r"
  else if Nat.eqb n 9 then String backslash "t"
  else if Nat.ltb n 32 then
    String backslash
      (String "u" (String "0" (String "0"
         (String (hexDigit (n / 16)) (String (hexDigit (n mod 16)) "")))))
  else String c "".

Fixpoint escape (s : string) : string :=
  match s with
  | EmptyString => ""
  | String c rest => escapeChar c +:+ escape rest
  end.

Definition quote (s : string) : string :=
  String dquote (escape s +:+ String dquote "").

(** [JSON.stringify(value)] with no replacer and no indentation. *)
Fixpoint JSON_stringify (j : Json) : string :=
  match j with
  | JNull => "null"
  | JBool true => "true"
  | JBool false => "false"
  | JNum z => pretty z
  | JStr s => quote s
  | JArr items => "[" +:+ String.concat "," (map JSON_stringify items) +:+ "]"
  | JObj fields =>
      "{" +:+ String.concat ","
                (map (fun kv => quote (fst kv) +:+ ":" +:+ JSON_stringify (snd kv))
                     fields) +:+ "}"
  end.

(** [ToString(value)], the coercion behind [textContent += item.text];
    [None] is [undefined]. *)
Fixpoint toString (j : Json) : string :=
  match j with
  | JNull => "null"
  | JBool true => "true"
  | JBool false => "false"
  | JNum z => pretty z
  | JStr s => s
  | JArr items =>
      String.concat ","
        (map (fun x => match x with JNull => "" | _ => toString x end) items)
  | JObj _ => "[object Object]"
  end.

Definition toStringU (v : option Json) : string :=
  match v with
  | None => "undefined"
  | Some j => toString j
  end.

(** Truthiness of a value; [None] is [undefined]. *)
Definition truthy (v : option Json) : bool :=
  match v with
  | None | Some JNull => false
  | Some (JBool b) => b
  | Some (JNum z) => negb (Z.eqb z 0)
  | Some (JStr s) => negb (String.eqb s "")
  | Some (JArr _) | Some (JObj _) => true
  end.

Fixpoint lookupField (key : string) (fields : list (string * Json)) : option Json :=
  match fields with
  | [] => None
  | (k, v) :: rest => if String.eqb k key then Some v else lookupField key rest
  end.

(** [value.key] for the keys the code reads ([content], [type], [text]):
    none of them is a member of a built-in prototype, so only objects have
    them; reading a property of [null] throws. *)
Definition getProp (key : string) (j : Json) : JsError + option Json :=
  match j with
  | JNull =>
      inl (mkError ("Cannot read properties of null (reading '" +:+ key +:+ "')"))
  | JObj fields => inr (lookupField key fields)
  | _ => inr None
  end.

Fixpoint chars (s : string) : list Json :=
  match s with
  | EmptyString => []
  | String c rest => JStr (String c "") :: chars rest
  end.

(** The values [for (const item of value)] iterates over; anything but an
    array or a string is not iterable. *)
Definition iterate (what : string) (j : Json) : JsError + list Json :=
  match j with
  | JArr items => inr items
  | JStr s => inr (chars s)
  | _ => inl (mkError (what +:+ " is not iterable"))
  end.

(** The names every plain object, and [process.env], inherits from
    [Object.prototype]: reading one of them from an object that has no such
    key of its own gives a function (for [__proto__] the prototype itself),
    which is truthy. *)
Definition inheritedMembers : list string :=
  ["constructor"; "__defineGetter__"; "__defineSetter__"; "hasOwnProperty";
   "__lookupGetter__"; "__lookupSetter__"; "isPrototypeOf"; "propertyIsEnumerable";
   "toString"; "valueOf"; "__proto__"; "toLocaleString"].

Definition isInherited (name : string) : bool :=
  existsb (String.eqb name) inheritedMembers.

(** A value of the transport options: a JSON value (from the configuration
    or the string of an environment variable), or the member of
    [Object.prototype] of the given name, which is no string. *)
Inductive Value : Type :=
| Data (j : Json)
| Inherited (name : string).

End Js.

Import Js.

(** * Data model: the Messages API and MCP values the code handles *)

(** A content block, tagged by its [type]. [is_error] is [None] where the
    code builds a [tool_result] without that key. [OtherBlock] is a block of
    any other type, kept verbatim. *)
Inductive Block : Type :=
| Text (text : string)
| ToolUse (id name : string) (input : Json)
| ToolResult (tool_use_id content : string) (is_error : option bool)
| OtherBlock (raw : Json).

Inductive Role : Type := user | assistant.

(** [content] of a message: a plain string or an array of blocks. *)
Inductive Content : Type :=
| Plain (text : string)
| Blocks (blocks : list Block).

Module Message.
Record t : Type := mk { role : Role; content : Content }.
End Message.

(** An entry of [mcpTools]. *)
Module Tool.
Record t : Type := mk {
  name : string;
  description : option string;
  input_schema : Json;
  _serverName : string;
  _originalName : string
}.
End Tool.

(** A tool in the format of the Messages API. *)
Module AnthropicTool.
Record t : Type := mk {
  name : string;
  description : option string;
  input_schema : Json
}.
End AnthropicTool.

(** An element of [toolsResult.tools], as [client.listTools()] reports it. *)
Module ListedTool.
Record t : Type := mk {
  name : string;
  description : option string;
  inputSchema : Json
}.
End ListedTool.

(** The argument of [anthropic.messages.create]. [tools = None] is a
    request whose [tools] is [undefined] or missing, which the SDK sends
    the same way. [system] is [None] when [agentPrompts] has no such key. *)
Module Request.
Record t : Type := mk {
  model : string;
  max_tokens : Z;
  system : option string;
  messages : list Message.t;
  tools : option (list AnthropicTool.t)
}.
End Request.

Module Response.
Record t : Type := mk { stop_reason : string; content : list Block }.
End Response.

(** One entry of [mcpServers] in [mcp-config.json]. *)
Module ServerConfig.
Record t : Type := mk {
  command : string;
  args : option (list Json);
  env : option (gmap string Json)
}.
End ServerConfig.

(** The options of [new StdioClientTransport]. *)
Module TransportOptions.
Record t : Type := mk {
  command : string;
  args : list Value;
  env : gmap string Value
}.
End TransportOptions.

(** What [fetch] resolves to, as far as [braveSearch] looks at it. *)
Module FetchResponse.
Record t : Type := mk { ok : bool; status : Z; json : JsError + Json }.
End FetchResponse.

(** A call of [console.log] or [console.error] with its arguments (an error
    object is recorded by its message). *)
Inductive ConsoleEntry : Type :=
| console_log (args : list string)
| console_error (args : list string).

(** * The world outside the program *)

(** A promise settles: it is fulfilled with a value or rejected with an
    error. *)
Inductive Settled (A : Type) : Type :=
| Fulfilled (a : A)
| Rejected (e : JsError).
Arguments Fulfilled {A} a.
Arguments Rejected {A} e.

(** The collaborators of the program: the model service behind
    [anthropic.messages.create], the MCP client SDK ([client_connect] is
    [new Client], [new StdioClientTransport] and [client.connect] together)
    and [fetch]. Each takes the state of the outside world and returns the
    new one. *)
Class Platform : Type := {
  World : Type;
  Client : Type;
  anthropic_messages_create : Request.t -> World -> Settled Response.t * World;
  client_connect : TransportOptions.t -> World -> Settled Client * World;
  client_listTools : Client -> World -> Settled (list ListedTool.t) * World;
  client_callTool : Client -> string -> Json -> World -> Settled Json * World;
  fetch : string -> list (string * string) -> World -> Settled FetchResponse.t * World
}.

(** The state of the Node process: the outside world, [process.env], the
    module-level [mcpClients] and [mcpTools], and what was written to the
    console. [calls] and [transports] are ghost fields: every exchange with
    the model and every transport created, in order. *)
Record Process `{Platform} : Type := mkProcess {
  world : World;
  process_env : gmap string string;
  mcpClients : gmap string Client;
  mcpTools : list Tool.t;
  console : list ConsoleEntry;
  calls : list (Request.t * Settled Response.t);
  transports : list TransportOptions.t
}.

(** How a computation ends; [OutOfFuel] stands for a loop that has not
    finished within the iterations it was given. *)
Inductive Outcome (A : Type) : Type :=
| Returned (a : A)
| Thrown (e : JsError)
| OutOfFuel.
Arguments Returned {A} a.
Arguments Thrown {A} e.
Arguments OutOfFuel {A}.

Section Monad.
Context `{Platform}.

Definition M (A : Type) : Type := Process -> Outcome A * Process.

#[export] Instance M_ret : MRet M := fun _ a s => (Returned a, s).

#[export] Instance M_bind : MBind M := fun _ _ k m s =>
  match m s with
  | (Returned a, s') => k a s'
  | (Thrown e, s') => (Thrown e, s')
  | (OutOfFuel, s') => (OutOfFuel, s')
  end.

Definition throw {A} (e : JsError) : M A := fun s => (Thrown e, s).

Definition outOfFuel {A} : M A := fun s => (OutOfFuel, s).

(** [try { body } catch (error) { handler }] *)
Definition try_catch {A} (body : M A) (handler : JsError -> M A) : M A := fun s =>
  match body s with
  | (Thrown e, s') => handler e s'
  | r => r
  end.

Definition getProcess : M Process := fun s => (Returned s, s).

Definition liftE {A} (r : JsError + A) : M A :=
  match r with
  | inl e => throw e
  | inr a => mret a
  end.

Definition settle {A} (r : Settled A) : Outcome A :=
  match r with
  | Fulfilled a => Returned a
  | Rejected e => Thrown e
  end.

Definition setWorld (w : World) (s : Process) : Process :=
  mkProcess _ w (process_env s) (mcpClients s) (mcpTools s) (console s)
            (calls s) (transports s).

(** [await io]: run a collaborator on the outside world. *)
Definition await {A} (io : World -> Settled A * World) : M A := fun s =>
  let r := io (world s) in (settle r.1, setWorld r.2 s).

Definition write (entry : ConsoleEntry) : M unit := fun s =>
  (Returned tt,
   mkProcess _ (world s) (process_env s) (mcpClients s) (mcpTools s)
             (console s ++ [entry]) (calls s) (transports s)).

(** [anthropic.messages.create({...})], recorded in [calls]. *)
Definition messages_create (request : Request.t) : M Response.t := fun s =>
  let r := anthropic_messages_create request (world s) in
  (settle r.1,
   mkProcess _ r.2 (process_env s) (mcpClients s) (mcpTools s) (console s)
             (calls s ++ [(request, r.1)]) (transports s)).

End Monad.

(** * server.js *)

Module Server.
Section Server.
Context `{Platform}.

(** [agentPrompts[agentType]]; [None] is [undefined] (members inherited from
    [Object.prototype] are not agent types). *)
Definition agentPrompts (agentType : string) : option string :=
  if String.eqb agentType "researcher" then Some
"You are a Research Agent with access to tools. Your job is to search for and gather information about topics.
When given a topic, USE YOUR TOOLS to search for current information.
After gathering information, provide 3-4 key findings with specific details.
Always use the available search tools - do not make up information."
  else if String.eqb agentType "analyzer" then Some
"You are an Analysis Agent. Your job is to analyze research findings and extract key insights.
When given research findings, identify the 3 most important insights.
For each insight, explain why it matters and what implications it has.
Format your response with bold insight headers and clear explanations."
  else if String.eqb agentType "writer" then Some
"You are a Writer Agent. Your job is to synthesize analysis into professional reports.
When given an analysis, write a concise 3-4 paragraph report that:
- Opens with a strong summary statement
- Presents the key findings in a logical flow
- Discusses implications and challenges
- Concludes with forward-looking perspective
Write in a professional, clear style suitable for business readers."
  else None.

(** ** Provider configuration *)

Definition startsWith (c : ascii) (s : string) : bool :=
  match s with
  | String c' _ => Ascii.eqb c' c
  | EmptyString => false
  end.

(** [s.slice(1)] *)
Definition slice1 (s : string) : string :=
  match s with
  | String _ rest => rest
  | EmptyString => ""
  end.

(** [process.env[envVar] || value]: an unset or empty variable is falsy.
    [penv] holds the variables of the process; under a name that is not a
    variable, [process.env] still has what it inherits from
    [Object.prototype], which is truthy. *)
Definition envOr (penv : gmap string string) (envVar : string) (value : Json) : Value :=
  match penv !! envVar with
  | Some v => if String.eqb v "" then Data value else Data (JStr v)
  | None => if isInherited envVar then Inherited envVar else Data value
  end.

(** The body of the [args.map] callback, and of the loop over [env]. *)
Definition substitute (penv : gmap string string) (arg : Json) : Value :=
  match arg with
  | JStr s =>
      if startsWith "$" s then
        let envVar := slice1 s in
        envOr penv envVar arg
      else Data arg
  | _ => Data arg
  end.

(** [{ ...process.env, ...(serverConfig.env || {}) }]: the spread copies
    the variables of the process, not what [process.env] inherits. *)
Definition mergeEnv (penv : gmap string string) (serverConfig : ServerConfig.t)
  : gmap string Json :=
  default ∅ (ServerConfig.env serverConfig) ∪ (JStr <$> penv).

(** The loop [for (const [key, value] of Object.entries(env))], which
    assigns [env[key]] for the entries that are references. *)
Definition resolveEnv (penv : gmap string string) (env : gmap string Json)
  : gmap string Value :=
  map_fold
    (fun key value env' =>
       match value with
       | JStr s =>
           if startsWith "$" s then
             let envVar := slice1 s in
             <[key := envOr penv envVar value]> env'
           else env'
       | _ => env'
       end)
    (Data <$> env) env.

Definition transportOptions (penv : gmap string string) (serverConfig : ServerConfig.t)
  : TransportOptions.t :=
  let args := map (substitute penv) (default [] (ServerConfig.args serverConfig)) in
  let env := mergeEnv penv serverConfig in
  let env := resolveEnv penv env in
  TransportOptions.mk (ServerConfig.command serverConfig) args env.

(** ** initializeMCP *)

(** [new StdioClientTransport(...)] followed by [client.connect(transport)]. *)
Definition connect (options : TransportOptions.t) : M Client := fun s =>
  await (client_connect options)
        (mkProcess _ (world s) (process_env s) (mcpClients s) (mcpTools s)
                   (console s) (calls s) (transports s ++ [options])).

(** [mcpClients[serverName] = client] *)
Definition setClient (serverName : string) (client : Client) : M unit := fun s =>
  (Returned tt,
   mkProcess _ (world s) (process_env s) (<[serverName := client]> (mcpClients s))
             (mcpTools s) (console s) (calls s) (transports s)).

(** [mcpTools.push(tool)] *)
Definition pushTool (tool : Tool.t) : M unit := fun s =>
  (Returned tt,
   mkProcess _ (world s) (process_env s) (mcpClients s) (mcpTools s ++ [tool])
             (console s) (calls s) (transports s)).

(** [`${serverName}__${tool.name}`] *)
Definition qualifiedName (serverName localName : string) : string :=
  serverName +:+ "__" +:+ localName.

Definition namespaced (serverName : string) (tool : ListedTool.t) : Tool.t :=
  Tool.mk (qualifiedName serverName (ListedTool.name tool))
          (ListedTool.description tool)
          (ListedTool.inputSchema tool)
          serverName
          (ListedTool.name tool).

(** [for (const tool of toolsResult.tools) mcpTools.push({...})] *)
Fixpoint pushTools (serverName : string) (tools : list ListedTool.t) : M unit :=
  match tools with
  | [] => mret tt
  | tool :: rest =>
      pushTool (namespaced serverName tool);;
      pushTools serverName rest
  end.

(** The body of the loop over the configured servers. *)
Definition registerServer (serverName : string) (serverConfig : ServerConfig.t)
  : M unit :=
  try_catch
    (write (console_log ["Connecting to MCP server: " +:+ serverName +:+ "..."]);;
     s ← getProcess;
     client ← connect (transportOptions (process_env s) serverConfig);
     setClient serverName client;;
     tools ← await (client_listTools client);
     pushTools serverName tools;;
     write (console_log ["Connected to " +:+ serverName +:+ ", loaded "
                         +:+ pretty (length tools) +:+ " tools"]))
    (fun error =>
       write (console_error ["Failed to connect to MCP server " +:+ serverName +:+ ":";
                             message error])).

Fixpoint registerServers (entries : list (string * ServerConfig.t)) : M unit :=
  match entries with
  | [] => mret tt
  | (serverName, serverConfig) :: rest =>
      registerServer serverName serverConfig;;
      registerServers rest
  end.

(** [initializeMCP], given [Object.entries(config.mcpServers || {})] of the
    configuration that [loadMCPConfig] read. *)
Definition initializeMCP (entries : list (string * ServerConfig.t)) : M unit :=
  registerServers entries;;
  s ← getProcess;
  write (console_log ["Total MCP tools available: " +:+ pretty (length (mcpTools s))]).

(** ** callMCPTool *)

Definition callMCPTool (toolName : string) (args : Json) : M Json :=
  s ← getProcess;
  match List.find (fun t => String.eqb (Tool.name t) toolName) (mcpTools s) with
  | None => throw (mkError ("Tool not found: " +:+ toolName))
  | Some tool =>
      match mcpClients s !! Tool._serverName tool with
      | None => throw (mkError ("MCP client not found: " +:+ Tool._serverName tool))
      | Some client => await (client_callTool client (Tool._originalName tool) args)
      end
  end.

Definition getAnthropicTools (s : Process) : list AnthropicTool.t :=
  map (fun tool => AnthropicTool.mk (Tool.name tool) (Tool.description tool)
                                    (Tool.input_schema tool))
      (mcpTools s).

(** ** callClaudeAgent *)

(** [item.type === 'text'] *)
Definition isTextItem (type : option Json) : bool :=
  match type with
  | Some (JStr t) => String.eqb t "text"
  | _ => false
  end.

(** [for (const item of result.content) if (item.type === 'text')
    textContent += item.text] *)
Fixpoint forItems (items : list Json) (textContent : string) : JsError + string :=
  match items with
  | [] => inr textContent
  | item :: rest =>
      match getProp "type" item with
      | inl e => inl e
      | inr type =>
          if isTextItem type then
            match getProp "text" item with
            | inl e => inl e
            | inr text => forItems rest (textContent +:+ toStringU text)
            end
          else forItems rest textContent
      end
  end.

(** "Extract text content from MCP result": the value of [textContent]
    after the loop, or the [TypeError] thrown on the way. *)
Definition extractText (result : Json) : JsError + string :=
  match getProp "content" result with
  | inl e => inl e
  | inr content =>
      if truthy content then
        match iterate "result.content" (default JNull content) with
        | inl e => inl e
        | inr items => forItems items ""
        end
      else inr ""
  end.

(** [textContent || JSON.stringify(result)] *)
Definition contentOf (textContent : string) (result : Json) : string :=
  if String.eqb textContent "" then JSON_stringify result else textContent.

(** The body of [for (const block of response.content)] for one block,
    with [toolResults] as it stands so far. *)
Definition dispatch (block : Block) (toolResults : list Block) : M (list Block) :=
  match block with
  | ToolUse id name input =>
      write (console_log ["Calling tool: " +:+ name]);;
      try_catch
        (result ← callMCPTool name input;
         textContent ← liftE (extractText result);
         mret (toolResults ++ [ToolResult id (contentOf textContent result) None]))
        (fun error =>
           write (console_error ["Tool error: " +:+ message error]);;
           mret (toolResults ++
                 [ToolResult id ("Error: " +:+ message error) (Some true)]))
  | _ => mret toolResults
  end.

Fixpoint forBlocks (blocks : list Block) (toolResults : list Block) : M (list Block) :=
  match blocks with
  | [] => mret toolResults
  | block :: rest =>
      toolResults ← dispatch block toolResults;
      forBlocks rest toolResults
  end.

Definition createRequest (systemPrompt : option string) (messages : list Message.t)
    (tools : list AnthropicTool.t) : Request.t :=
  Request.mk "claude-sonnet-4-20250514" 4096 systemPrompt messages
             (if Nat.ltb 0 (length tools) then Some tools else None).

Definition isText (block : Block) : bool :=
  match block with
  | Text _ => true
  | _ => false
  end.

Definition blockText (block : Block) : string :=
  match block with
  | Text text => text
  | _ => ""
  end.

(** [response.content.filter(...).map(block => block.text).join('\n')] *)
Definition joinText (content : list Block) : string :=
  String.concat newline (map blockText (List.filter isText content)).

(** The body of the [while] loop: the assistant turn, the tool calls, the
    user turn with their results, and the next call of the model. *)
Definition iteration (systemPrompt : option string) (tools : list AnthropicTool.t)
    (messages : list Message.t) (response : Response.t)
  : M (list Message.t * Response.t) :=
  let assistantMessage := Message.mk assistant (Blocks (Response.content response)) in
  let messages := messages ++ [assistantMessage] in
  toolResults ← forBlocks (Response.content response) [];
  let messages := messages ++ [Message.mk user (Blocks toolResults)] in
  response ← messages_create (createRequest systemPrompt messages tools);
  mret (messages, response).

(** [while (response.stop_reason === 'tool_use') { ... }] and the [return]
    after it; [fuel] bounds the number of iterations. *)
Fixpoint toolUseLoop (fuel : nat) (systemPrompt : option string)
    (tools : list AnthropicTool.t) (messages : list Message.t)
    (response : Response.t) : M string :=
  if String.eqb (Response.stop_reason response) "tool_use" then
    match fuel with
    | O => outOfFuel
    | S fuel =>
        next ← iteration systemPrompt tools messages response;
        toolUseLoop fuel systemPrompt tools next.1 next.2
    end
  else mret (joinText (Response.content response)).

(** [if (previousContext)]: [null], [undefined] and the empty string are
    falsy. *)
Definition hasContext (previousContext : option string) : bool :=
  match previousContext with
  | Some c => negb (String.eqb c "")
  | None => false
  end.

Definition acknowledgment : string :=
  "I understand the context. Please provide your request.".

Definition initialMessages (userMessage : string) (previousContext : option string)
  : list Message.t :=
  let messages := [] in
  let messages :=
    if hasContext previousContext then
      messages ++ [Message.mk user (Plain (default "" previousContext))]
               ++ [Message.mk assistant (Plain acknowledgment)]
    else messages in
  messages ++ [Message.mk user (Plain userMessage)].

Definition callClaudeAgent (fuel : nat) (agentType userMessage : string)
    (previousContext : option string) : M string :=
  let systemPrompt := agentPrompts agentType in
  let messages := initialMessages userMessage previousContext in
  s ← getProcess;
  let tools := if String.eqb agentType "researcher" then getAnthropicTools s else [] in
  response ← messages_create (createRequest systemPrompt messages tools);
  toolUseLoop fuel systemPrompt tools messages response.

End Server.
End Server.

(** * api/agent.js *)

Module ApiAgent.
Section ApiAgent.
Context `{Platform}.

Definition agentPrompts (agentType : string) : option string :=
  if String.eqb agentType "researcher" then Some
"You are a Research Agent. Your job is to search for and gather information about topics.
When given a topic, provide 3-4 key findings with specific details based on your knowledge.
Focus on recent developments and important facts."
  else if String.eqb agentType "analyzer" then Some
"You are an Analysis Agent. Your job is to analyze research findings and extract key insights.
When given research findings, identify the 3 most important insights.
For each insight, explain why it matters and what implications it has.
Format your response with bold insight headers and clear explanations."
  else if String.eqb agentType "writer" then Some
"You are a Writer Agent. Your job is to synthesize analysis into professional reports.
When given an analysis, write a concise 3-4 paragraph report that:
- Opens with a strong summary statement
- Presents the key findings in a logical flow
- Discusses implications and challenges
- Concludes with forward-looking perspective
Write in a professional, clear style suitable for business readers."
  else None.

Definition callClaudeAgent (agentType userMessage : string)
    (previousContext : option string) : M string :=
  let systemPrompt := agentPrompts agentType in
  let messages := [] in
  let messages :=
    match previousContext with
    | Some c =>
        if String.eqb c "" then messages
        else messages ++ [Message.mk user (Plain c)]
                      ++ [Message.mk assistant
                            (Plain "I understand the context. Please provide your request.")]
    | None => messages
    end in
  let messages := messages ++ [Message.mk user (Plain userMessage)] in
  response ← messages_create
               (Request.mk "claude-sonnet-4-20250514" 4096 systemPrompt messages None);
  mret (String.concat newline
          (map (fun block => match block with Text text => text | _ => "" end)
               (List.filter (fun block => match block with Text _ => true | _ => false end)
                            (Response.content response)))).

End ApiAgent.
End ApiAgent.

(** * The Brave-search variant of the serverless function *)

Module Part000.
Section Part000.
Context `{Platform}.

Definition isUnreserved (c : ascii) : bool :=
  let n := nat_of_ascii c in
  (Nat.leb 65 n && Nat.leb n 90) || (Nat.leb 97 n && Nat.leb n 122)
  || (Nat.leb 48 n && Nat.leb n 57)
  || existsb (Nat.eqb n) [45; 95; 46; 33; 126; 42; 39; 40; 41].

Definition upperHex (n : nat) : ascii :=
  ascii_of_nat (if Nat.ltb n 10 then 48 + n else 55 + n).

(** [encodeURIComponent], on the UTF-8 bytes of the string. *)
Fixpoint encodeURIComponent (s : string) : string :=
  match s with
  | EmptyString => ""
  | String c rest =>
      (if isUnreserved c then String c ""
       else String "%" (String (upperHex (nat_of_ascii c / 16))
                               (String (upperHex (nat_of_ascii c mod 16)) "")))
      +:+ encodeURIComponent rest
  end.

(** A formatted search result: [{ title, description, url }]. *)
Record SearchResult : Type := mkResult {
  title : option Json;
  description : option Json;
  url : option Json
}.

(** [data.web.results.map(r => ({...}))] *)
Fixpoint formatResults (results : list Json) : JsError + list SearchResult :=
  match results with
  | [] => inr []
  | r :: rest =>
      match getProp "title" r, getProp "description" r, getProp "url" r with
      | inr t, inr d, inr u =>
          match formatResults rest with
          | inr l => inr (mkResult t d u :: l)
          | inl e => inl e
          end
      | inl e, _, _ | _, inl e, _ | _, _, inl e => inl e
      end
  end.

(** The part of [braveSearch] after [response.json()]. *)
Definition webResults (data : Json) : JsError + option (list SearchResult) :=
  match getProp "web" data with
  | inl e => inl e
  | inr web =>
      if truthy web then
        match getProp "results" (default JNull web) with
        | inl e => inl e
        | inr results =>
            if truthy results then
              match default JNull results with
              | JArr items =>
                  match formatResults items with
                  | inr l => inr (Some l)
                  | inl e => inl e
                  end
              | _ => inl (mkError "data.web.results.map is not a function")
              end
            else inr None
        end
      else inr None
  end.

(** [braveSearch(query)]; [None] is [null]. *)
Definition braveSearch (query : string) : M (option (list SearchResult)) :=
  s ← getProcess;
  match process_env s !! "BRAVE_API_KEY" with
  | None => mret None
  | Some apiKey =>
      if String.eqb apiKey "" then mret None
      else
        try_catch
          (response ← await
             (fetch ("https://api.search.brave.com/res/v1/web/search?q="
                       +:+ encodeURIComponent query +:+ "&count=5")
                    [("Accept", "application/json"); ("X-Subscription-Token", apiKey)]);
           if negb (FetchResponse.ok response) then
             write (console_error ["Brave Search error:";
                                   pretty (FetchResponse.status response)]);;
             mret None
           else
             data ← liftE (FetchResponse.json response);
             liftE (webResults data))
          (fun error =>
             write (console_error ["Brave Search error:"; message error]);;
             mret None)
  end.

Definition agentPrompts (agentType : string) : option string :=
  if String.eqb agentType "researcher" then Some
"You are a Research Agent with access to real-time web search results. Your job is to analyze the search results provided and gather key information about topics.
When given search results, synthesize them into 3-4 key findings with specific details.
Always cite your sources by mentioning where the information came from.
Focus on the most recent and relevant information from the search results."
  else if String.eqb agentType "analyzer" then Some
"You are an Analysis Agent. Your job is to analyze research findings and extract key insights.
When given research findings, identify the 3 most important insights.
For each insight, explain why it matters and what implications it has.
Format your response with bold insight headers and clear explanations."
  else if String.eqb agentType "writer" then Some
"You are a Writer Agent. Your job is to synthesize analysis into professional reports.
When given an analysis, write a concise 3-4 paragraph report that:
- Opens with a strong summary statement
- Presents the key findings in a logical flow
- Discusses implications and challenges
- Concludes with forward-looking perspective
Write in a professional, clear style suitable for business readers."
  else None.

(** [`[${i + 1}] ${r.title}\n${r.description}\nSource: ${r.url}`], for the
    results from index [i] on. *)
Fixpoint searchLines (i : nat) (results : list SearchResult) : list string :=
  match results with
  | [] => []
  | r :: rest =>
      ("[" +:+ pretty (i + 1) +:+ "] " +:+ toStringU (title r) +:+ newline
         +:+ toStringU (description r) +:+ newline
         +:+ "Source: " +:+ toStringU (url r))
      :: searchLines (S i) rest
  end.

Definition enrich (userMessage : string) (searchResults : list SearchResult) : string :=
  let searchContext := String.concat (newline +:+ newline) (searchLines 0 searchResults) in
  "Search query: " +:+ String dquote (userMessage +:+ String dquote
    (newline +:+ newline +:+ "Web search results:" +:+ newline +:+ searchContext
     +:+ newline +:+ newline
     +:+ "Please analyze these search results and provide key findings about: "
     +:+ userMessage)).

Definition callClaudeAgent (agentType userMessage : string)
    (previousContext : option string) : M string :=
  let systemPrompt := agentPrompts agentType in
  let messages := [] in
  enrichedMessage ←
    (if String.eqb agentType "researcher" then
       searchResults ← braveSearch userMessage;
       match searchResults with
       | Some (r :: rest) => mret (enrich userMessage (r :: rest))
       | _ => mret userMessage
       end
     else mret userMessage);
  let messages :=
    match previousContext with
    | Some c =>
        if String.eqb c "" then messages
        else messages ++ [Message.mk user (Plain c)]
                      ++ [Message.mk assistant
                            (Plain "I understand the context. Please provide your request.")]
    | None => messages
    end in
  let messages := messages ++ [Message.mk user (Plain enrichedMessage)] in
  response ← messages_create
               (Request.mk "claude-sonnet-4-20250514" 4096 systemPrompt messages None);
  mret (String.concat newline
          (map (fun block => match block with Text text => text | _ => "" end)
               (List.filter (fun block => match block with Text _ => true | _ => false end)
                            (Response.content response)))).

End Part000.
End Part000.

(** * A scripted platform

    A concrete world to run the code in: the model answers with the
    responses of [script], one per call (and rejects once they are used up);
    a provider is identified by its command, an empty command fails to
    launch, [listing] gives the tools a provider reports and [reply] what a
    call of one of its tools settles to. The state of this world is the
    number of model calls made so far. *)

Definition scripted (script : list Response.t)
    (listing : string -> Settled (list ListedTool.t))
    (reply : string -> string -> Settled Json) : Platform := {|
  World := nat;
  Client := string;
  anthropic_messages_create := fun _ n =>
    (match script !! n with
     | Some r => Fulfilled r
     | None => Rejected (mkError "no response left")
     end, S n);
  client_connect := fun options n =>
    (if String.eqb (TransportOptions.command options) ""
     then Rejected (mkError "spawn ENOENT")
     else Fulfilled (TransportOptions.command options), n);
  client_listTools := fun client n => (listing client, n);
  client_callTool := fun client name _ n => (reply client name, n);
  fetch := fun _ _ n => (Rejected (mkError "fetch failed"), n)
|}.

(** The process as it starts: nothing registered, nothing written. *)
Definition start `{Platform} (w : World) (penv : gmap string string) : Process :=
  mkProcess _ w penv ∅ [] [] [] [].

(** * Vocabulary of the properties *)

(** The ids of the [tool_use] blocks of a response, in order. *)
Definition toolUseIds (content : list Block) : list string :=
  omap (fun block => match block with ToolUse id _ _ => Some id | _ => None end) content.

(** For each block of a user turn, the [tool_use_id] it answers, when it is
    a [tool_result]. *)
Definition toolResultIds (blocks : list Block) : list (option string) :=
  map (fun block => match block with ToolResult id _ _ => Some id | _ => None end) blocks.

(** How the Messages API reads [is_error]: a missing key is [false]. *)
Definition isError (block : Block) : bool :=
  match block with
  | ToolResult _ _ (Some true) => true
  | _ => false
  end.

(** The text of a segment of a provider response, when it is text-typed. *)
Definition segmentText (item : Json) : option string :=
  match item with
  | JObj fields =>
      if Server.isTextItem (lookupField "type" fields)
      then Some (toStringU (lookupField "text" fields))
      else None
  | _ => None
  end.

(** The text-typed segments of a provider response, in order. *)
Definition textSegments (result : Json) : list string :=
  match result with
  | JObj fields =>
      match lookupField "content" fields with
      | Some (JArr items) => omap segmentText items
      | _ => []
      end
  | _ => []
  end.

Definition isObject (j : Json) : bool :=
  match j with
  | JObj _ => true
  | _ => false
  end.

(** The shape of a tool result of the MCP SDK: an object whose [content],
    when present, is an array of objects. *)
Definition mcpShaped (result : Json) : bool :=
  match result with
  | JObj fields =>
      match lookupField "content" fields with
      | None => true
      | Some (JArr items) => forallb isObject items
      | Some _ => false
      end
  | _ => false
  end.

(** A provider name after which the separator can be told apart: it has no
    two underscores in a row and does not end with one. *)
Fixpoint separable (serverName : string) : bool :=
  match serverName with
  | EmptyString => true
  | String c rest =>
      if Ascii.eqb c "_" then
        match rest with
        | EmptyString => false
        | String d _ => negb (Ascii.eqb d "_") && separable rest
        end
      else separable rest
  end.

(** The tool results the [for] loop builds for a response, in a given
    state of the process. *)
Definition toolResultsFor `{Platform} (content : list Block) (s : Process) : list Block :=
  match (Server.forBlocks content [] s).1 with
  | Returned toolResults => toolResults
  | _ => []
  end.

(** The fields of the process that tool calls leave alone. *)
Definition sameRegistry `{Platform} (s s' : Process) : Prop :=
  process_env s' = process_env s ∧ mcpClients s' = mcpClients s ∧
  mcpTools s' = mcpTools s ∧ calls s' = calls s ∧ transports s' = transports s.

(** The console entries of [initializeMCP] for one provider. *)
Definition connecting (serverName : string) : ConsoleEntry :=
  console_log ["Connecting to MCP server: " +:+ serverName +:+ "..."].

Definition failedToConnect (serverName : string) (error : JsError) : ConsoleEntry :=
  console_error ["Failed to connect to MCP server " +:+ serverName +:+ ":";
                 message error].

(** A registry built from the providers [names]: its names are distinct
    and each is qualified by one of the providers. *)
Definition qualifiedBy (names : list string) (tools : list Tool.t) : Prop :=
  NoDup (map Tool.name tools)
  /\ forall tool, tool ∈ tools ->
       exists p n, p ∈ names /\ Tool.name tool = Server.qualifiedName p n.

(** The [tool_result] of the [catch] block. *)
Definition errorResult (id : string) (error : JsError) : Block :=
  ToolResult id ("Error: " +:+ message error) (Some true).

(** The three ways a tool invocation fails with [error]: no tool of that
    name, no client for the tool's provider, or the call itself rejected. *)
Definition toolFailure `{Platform} (s : Process) (name : string) (input : Json)
    (error : JsError) : Prop :=
  match List.find (fun t => String.eqb (Tool.name t) name) (mcpTools s) with
  | None => error = mkError ("Tool not found: " +:+ name)
  | Some tool =>
      match mcpClients s !! Tool._serverName tool with
      | None => error = mkError ("MCP client not found: " +:+ Tool._serverName tool)
      | Some client =>
          (client_callTool client (Tool._originalName tool) input (world s)).1
          = Rejected error
      end
  end.

(** Every exchange with the model but the last was answered with
    [tool_use], and the request after it repeats its messages followed by
    the assistant turn and one user turn holding one [tool_result] per
    [tool_use] block of the response, with the ids of those blocks in their
    order. *)
Definition toolUsesAnswered (exchanges : list (Request.t * Settled Response.t)) : Prop :=
  forall (i : nat) q1 o1 q2 o2,
    exchanges !! i = Some (q1, o1) ->
    exchanges !! S i = Some (q2, o2) ->
    exists response toolResults,
      o1 = Fulfilled response
      /\ Response.stop_reason response = "tool_use"
      /\ Request.messages q2
         = Request.messages q1
           ++ [Message.mk assistant (Blocks (Response.content response));
               Message.mk user (Blocks toolResults)]
      /\ toolResultIds toolResults = Some <$> toolUseIds (Response.content response).

(** The [tools] parameter of a request made with the tool list [tools]. *)
Definition toolsParameter (tools : list AnthropicTool.t) : option (list AnthropicTool.t) :=
  Request.tools (Server.createRequest None [] tools).

(** The texts of the [text] blocks of a response, in order. *)
Definition textsOf (content : list Block) : list string :=
  omap (fun block => match block with Text text => Some text | _ => None end) content.

(** The messages all three variants of [callClaudeAgent] start from. *)
Definition seedMessages (userMessage : string) (previousContext : option string)
  : list Message.t :=
  match previousContext with
  | Some context =>
      if String.eqb context "" then [Message.mk user (Plain userMessage)]
      else [Message.mk user (Plain context);
            Message.mk assistant
              (Plain "I understand the context. Please provide your request.");
            Message.mk user (Plain userMessage)]
  | None => [Message.mk user (Plain userMessage)]
  end.

(** * Concrete runs *)

Definition noTools : Json := JObj [("type", JStr "object")].

(** Two providers whose qualified names run into each other: provider [a]
    reports the tool [b__c], provider [a__b] the tool [c]. *)
Definition collidingListing (client : string) : Settled (list ListedTool.t) :=
  if String.eqb client "first" then Fulfilled [ListedTool.mk "b__c" None noTools]
  else Fulfilled [ListedTool.mk "c" None noTools].

Definition collidingPlatform : Platform :=
  scripted [] collidingListing (fun _ _ => Fulfilled JNull).

Definition collidingEntries : list (string * ServerConfig.t) :=
  [("a", ServerConfig.mk "first" None None);
   ("a__b", ServerConfig.mk "second" None None)].

(** Three configured providers: [brave-search] and [fetch] both report a
    tool named [search]; [broken] has no command to launch. *)
Definition demoListing (client : string) : Settled (list ListedTool.t) :=
  if String.eqb client "brave-mcp" then
    Fulfilled [ListedTool.mk "search" (Some "Search the web") noTools;
               ListedTool.mk "news" None noTools]
  else Fulfilled [ListedTool.mk "search" (Some "Search a page") noTools].

Definition demoEntries : list (string * ServerConfig.t) :=
  [("brave-search",
    ServerConfig.mk "brave-mcp" (Some [JStr "-y"])
                    (Some {[ "BRAVE_API_KEY" := JStr "$BRAVE_API_KEY" ]}));
   ("broken", ServerConfig.mk "" None None);
   ("fetch", ServerConfig.mk "fetch-mcp" None None)].

(** What their tools answer: [search] of [brave-search] returns two text
    segments around an image, its [news] fails, and [search] of [fetch]
    returns one empty text segment. *)
Definition emptyText : Json :=
  JObj [("content", JArr [JObj [("type", JStr "text"); ("text", JStr "")]])].

Definition demoReply (client name : string) : Settled Json :=
  if String.eqb client "brave-mcp" then
    if String.eqb name "search" then
      Fulfilled
        (JObj [("content",
                JArr [JObj [("type", JStr "text"); ("text", JStr "Result A. ")];
                      JObj [("type", JStr "image"); ("data", JStr "aGk=")];
                      JObj [("type", JStr "text"); ("text", JStr "Result B.")]])])
    else Rejected (mkError "rate limited")
  else Fulfilled emptyText.

(** The model first asks for four tools, then answers. *)
Definition demoToolUse : Response.t :=
  Response.mk "tool_use"
    [Text "Let me search.";
     ToolUse "t1" "brave-search__search" (JObj [("query", JStr "quantum computing")]);
     ToolUse "t2" "brave-search__news" (JObj [("query", JStr "quantum computing")]);
     ToolUse "t3" "fetch__search" (JObj [("url", JStr "https://example.org")]);
     ToolUse "t4" "wiki__lookup" JNull].

Definition demoAnswer : Response.t :=
  Response.mk "end_turn"
    [Text "Finding one."; OtherBlock (JObj [("type", JStr "thinking")]);
     Text "Finding two."].

Definition demoPlatform : Platform :=
  scripted [demoToolUse; demoAnswer] demoListing demoReply.

(** The demo process once [initializeMCP] has run. *)
Definition demoProcess : @Process demoPlatform :=
  (@Server.initializeMCP demoPlatform demoEntries
     (@start demoPlatform 0 {[ "BRAVE_API_KEY" := "key" ]})).2.

(** A model that answers at once, without asking for tools. *)
Definition plainPlatform : Platform :=
  scripted [demoAnswer] demoListing demoReply.

(** * The HTTP handlers *)

(** The body of a request to [/api/agent] once parsed and destructured:
    the fields [agent], [message] and [context], each missing ([None]) or a
    string, as the HTTP surface types them. *)
Module Body.
Record t : Type := mk {
  agent : option string;
  message : option string;
  context : option string
}.
End Body.

(** What a handler sends: the status, the headers it set, and the body it
    wrote, if any. *)
Module HttpResponse.
Record t : Type := mk {
  status : Z;
  headers : list (string * string);
  body : option string
}.
End HttpResponse.

(** [!value] for a field of the body. *)
Definition falsy (value : option string) : bool :=
  match value with
  | Some v => String.eqb v ""
  | None => true
  end.

(** [!agentPrompts[agent]], for the table [agentPrompts] of a variant: for
    the names of [inheritedMembers] the lookup is truthy although the table
    has no such key. *)
Definition noPrompt (agentPrompts : string -> option string) (agent : string) : bool :=
  match agentPrompts agent with
  | Some prompt => String.eqb prompt ""
  | None => negb (isInherited agent)
  end.

(** The handler exported by [api/agent.js] and, word for word, by the
    Brave-search variant; [agentPrompts] and [callClaudeAgent] are those of
    the file. [body] is [req.body], [None] when there is none. *)
Module Serverless.
Section Serverless.
Context `{Platform}.
Variable agentPrompts : string -> option string.
Variable callClaudeAgent : string -> string -> option string -> M string.

(** The headers set by the three [res.setHeader] calls. *)
Definition corsHeaders : list (string * string) :=
  [("Access-Control-Allow-Origin", "*");
   ("Access-Control-Allow-Methods", "POST, OPTIONS");
   ("Access-Control-Allow-Headers", "Content-Type")].

(** [res.status(status).json(value)] *)
Definition json (status : Z) (value : Json) : HttpResponse.t :=
  HttpResponse.mk status corsHeaders (Some (JSON_stringify value)).

Definition handler (method : string) (body : option Body.t) : M HttpResponse.t :=
  if String.eqb method "OPTIONS" then mret (HttpResponse.mk 204 corsHeaders None)
  else if negb (String.eqb method "POST") then
    mret (json 405 (JObj [("error", JStr "Method not allowed")]))
  else
    try_catch
      (fields ←
         match body with
         | Some fields => mret fields
         | None =>
             throw (mkError
               "Cannot destructure property 'agent' of 'req.body' as it is undefined.")
         end;
       if falsy (Body.agent fields) || falsy (Body.message fields) then
         mret (json 400 (JObj [("error", JStr "Missing agent or message")]))
       else
         let agent := default "" (Body.agent fields) in
         let message := default "" (Body.message fields) in
         if noPrompt agentPrompts agent then
           mret (json 400 (JObj [("error", JStr "Invalid agent type")]))
         else
           result ← callClaudeAgent agent message (Body.context fields);
           mret (json 200 (JObj [("result", JStr result)])))
      (fun error =>
         write (console_error ["Error calling Claude:"; message error]);;
         mret (json 500 (JObj [("error", JStr (message error))]))).

End Serverless.
End Serverless.

(** The handlers of [server.js]. *)
Module ServerHttp.
Section ServerHttp.
Context `{Platform}.

Definition corsHeaders : list (string * string) :=
  [("Access-Control-Allow-Origin", "*");
   ("Access-Control-Allow-Methods", "POST, GET, OPTIONS");
   ("Access-Control-Allow-Headers", "Content-Type")].



End ServerHttp.
End ServerHttp.

(** The handler of [api/agent.js]. *)
Definition apiHandler `{Platform} : string -> option Body.t -> M HttpResponse.t :=
  Serverless.handler ApiAgent.agentPrompts ApiAgent.callClaudeAgent.

(** The handler of the Brave-search variant. *)
Definition searchHandler `{Platform} : string -> option Body.t -> M HttpResponse.t :=
  Serverless.handler Part000.agentPrompts Part000.callClaudeAgent.

(** * More vocabulary *)

(** The registry and the environment, which a run of an agent only reads. *)
Definition registryKept `{Platform} (s s' : Process) : Prop :=
  process_env s' = process_env s /\ mcpClients s' = mcpClients s
  /\ mcpTools s' = mcpTools s /\ transports s' = transports s.

(** Every registered tool belongs to a provider that has a client. *)
Definition clientsCover `{Platform} (s : Process) : Prop :=
  forall tool, tool ∈ mcpTools s -> is_Some (mcpClients s !! Tool._serverName tool).

(** The characters of a string. *)
Fixpoint charsOf (s : string) : list ascii :=
  match s with
  | EmptyString => []
  | String c rest => c :: charsOf rest
  end.

(** A model that asks for a tool on every call. *)
Definition insistentPlatform : Platform := {|
  World := unit;
  Client := string;
  anthropic_messages_create := fun _ w =>
    (Fulfilled (Response.mk "tool_use" [ToolUse "again" "fetch__search" JNull]), w);
  client_connect := fun options w => (Fulfilled (TransportOptions.command options), w);
  client_listTools := fun client w => (demoListing client, w);
  client_callTool := fun client name _ w => (demoReply client name, w);
  fetch := fun _ _ w => (Rejected (mkError "fetch failed"), w)
|}.

(** A search service that answers with two results, and a process that has
    a key for it. *)
Definition searchData : Json :=
  JObj [("web",
         JObj [("results",
                JArr [JObj [("title", JStr "Qubits"); ("description", JStr "An intro");
                            ("url", JStr "https://example.org/q")];
                      JObj [("title", JStr "Errors"); ("url", JStr "https://example.org/e")]])])].

Definition searchPlatform : Platform := {|
  World := nat;
  Client := string;
  anthropic_messages_create := fun _ n => (Fulfilled demoAnswer, S n);
  client_connect := fun options n => (Fulfilled (TransportOptions.command options), n);
  client_listTools := fun client n => (demoListing client, n);
  client_callTool := fun client name _ n => (demoReply client name, n);
  fetch := fun _ _ n => (Fulfilled (FetchResponse.mk true 200 (inr searchData)), S n)
|}.

(** What a tool call settles to on [echoColliding]: the client it was sent
    to and the local name it was sent under. *)
Definition echoReply (client name : string) : Settled Json :=
  Fulfilled (JObj [("client", JStr client); ("tool", JStr name)]).

(** The two providers of [collidingEntries], with tools that tell who was
    called, once [initializeMCP] has run. *)
Definition echoColliding : Platform := scripted [] collidingListing echoReply.

Definition echoProcess : @Process echoColliding :=
  (@Server.initializeMCP echoColliding collidingEntries (@start echoColliding 0 ∅)).2.

(** How a run of the loop ends is told by the last exchange with the
    model. *)
Definition endsWith (outcome : Outcome string) (final : Settled Response.t) : Prop :=
  match outcome with
  | Returned text =>
      exists response,
        final = Fulfilled response
        /\ Response.stop_reason response <> "tool_use"
        /\ text = String.concat newline (textsOf (Response.content response))
  | Thrown e => final = Rejected e
  | OutOfFuel =>
      exists response,
        final = Fulfilled response /\ Response.stop_reason response = "tool_use"
  end.

(** The request [braveSearch] sends for a query. *)
Definition searchUrl (query : string) : string :=
  "https://api.search.brave.com/res/v1/web/search?q="
    +:+ Part000.encodeURIComponent query +:+ "&count=5".

Definition searchHeaders (apiKey : string) : list (string * string) :=
  [("Accept", "application/json"); ("X-Subscription-Token", apiKey)].

(** A character that may stand in a query value: unreserved, or the
    percent sign of an escape. *)
Definition urlSafe (c : ascii) : bool :=
  Part000.isUnreserved c || Ascii.eqb c "%".

(** [item === null] *)
Definition isNull (j : Json) : bool :=
  match j with
  | JNull => true
  | _ => false
  end.

(** The results the extraction loop gets through: anything but [null]
    whose [content] is falsy, a string, or an array without [null]
    items. *)
Definition extractable (result : Json) : bool :=
  match result with
  | JNull => false
  | JObj fields =>
      match lookupField "content" fields with
      | None => true
      | Some content =>
          if truthy (Some content) then
            match content with
            | JArr items => forallb (fun item => negb (isNull item)) items
            | JStr _ => true
            | _ => false
            end
          else true
      end
  | _ => true
  end.

(** * Proofs *)

(** Unfold the monad and run the straight-line part of a computation. *)
Ltac run :=
  unfold mbind, M_bind, mret, M_ret, try_catch, throw, getProcess, await, write,
    liftE, settle, setWorld, Server.connect, Server.setClient, Server.pushTool;
  simpl.

(** ** Provider configuration *)

Section Configuration.

Lemma slice1_reference name : Server.slice1 ("$" +:+ name) = name.
Proof. reflexivity. Qed.





(** The loop over the entries of [env] amounts to substituting in every
    value. *)
Lemma resolveEnv_lookup penv (env : gmap string Json) key :
  Server.resolveEnv penv env !! key = Server.substitute penv <$> env !! key.
Proof.
  unfold Server.resolveEnv.
  set (f := fun (k : string) (value : Json) (env' : gmap string Value) => _).
  enough (Hgen : forall acc : gmap string Value,
             map_fold f acc env !! key
             = match env !! key with
               | Some value =>
                   match value with
                   | JStr s => if Server.startsWith "$" s
                               then Some (Server.substitute penv value)
                               else acc !! key
                   | _ => acc !! key
                   end
               | None => acc !! key
               end).
  { rewrite Hgen, lookup_fmap.
    destruct (env !! key) as [value|] eqn:Hk; [|reflexivity].
    simpl. destruct value; try reflexivity.
    simpl. destruct (Server.startsWith "$" s); reflexivity. }
  intros acc.
  apply (map_fold_weak_ind
           (fun (r : gmap string Value) (m : gmap string Json) =>
              r !! key
              = match m !! key with
                | Some value =>
                    match value with
                    | JStr s => if Server.startsWith "$" s
                                then Some (Server.substitute penv value)
                                else acc !! key
                    | _ => acc !! key
                    end
                | None => acc !! key
                end)).
  - rewrite lookup_empty. reflexivity.
  - intros i x m r Hi IH. destruct (decide (i = key)) as [->|Hne].
    + rewrite lookup_insert_eq. rewrite Hi in IH. unfold f.
      destruct x; try exact IH.
      simpl. destruct (Server.startsWith "$" s) eqn:Hs; [|exact IH].
      rewrite lookup_insert_eq. reflexivity.
    + rewrite lookup_insert_ne by exact Hne. unfold f.
      destruct x; try exact IH.
      destruct (Server.startsWith "$" s); [|exact IH].
      rewrite lookup_insert_ne by exact Hne. exact IH.
Qed.

Lemma mergeEnv_lookup penv serverConfig key :
  Server.mergeEnv penv serverConfig !! key
  = match default ∅ (ServerConfig.env serverConfig) !! key with
    | Some value => Some value
    | None => JStr <$> penv !! key
    end.
Proof.
  unfold Server.mergeEnv. rewrite lookup_union, lookup_fmap.
  destruct (default ∅ (ServerConfig.env serverConfig) !! key) as [v|];
    destruct (penv !! key); reflexivity.
Qed.

Lemma transport_env_lookup penv serverConfig key :
  TransportOptions.env (Server.transportOptions penv serverConfig) !! key
  = Server.substitute penv
      <$> match default ∅ (ServerConfig.env serverConfig) !! key with
          | Some value => Some value
          | None => JStr <$> penv !! key
          end.
Proof.
  unfold Server.transportOptions. simpl.
  rewrite resolveEnv_lookup, mergeEnv_lookup. reflexivity.
Qed.


End Configuration.


(** The literal does not always pass through when the variable is
    undefined either: with [args = ["$toString"]] and no variable of that
    name, [process.env.toString] is the function inherited from
    [Object.prototype], and that function, not the string ["$toString"],
    becomes the argument. *)
Lemma inherited_member_replaces_literal :
  let penv : gmap string string := {[ "SECRET" := "abc" ]} in
  let serverConfig := ServerConfig.mk "npx" (Some [JStr "$toString"]) None in
  penv !! "toString" = None
  /\ TransportOptions.args (Server.transportOptions penv serverConfig)
     = [Inherited "toString"].
Proof. cbv zeta. split; reflexivity. Qed.



(** * The tool registry *)

Section Registry.
Context `{Platform}.

Lemma pushTools_spec serverName tools s :
  Server.pushTools serverName tools s
  = (Returned tt,
     mkProcess _ (world s) (process_env s) (mcpClients s)
               (mcpTools s ++ map (Server.namespaced serverName) tools)
               (console s) (calls s) (transports s)).
Proof.
  revert s. induction tools as [|tool rest IH]; intros s.
  - destruct s. simpl. unfold mret, M_ret. simpl. rewrite app_nil_r. reflexivity.
  - simpl. run. rewrite IH. simpl. rewrite <- app_assoc. reflexivity.
Qed.

(** What registering one provider does, by the way the connection goes. *)
Lemma registerServer_spec serverName serverConfig s :
  let options := Server.transportOptions (process_env s) serverConfig in
  Server.registerServer serverName serverConfig s
  = match client_connect options (world s) with
    | (Rejected e, w) =>
        (Returned tt,
         mkProcess _ w (process_env s) (mcpClients s) (mcpTools s)
                   (console s ++ [connecting serverName; failedToConnect serverName e])
                   (calls s) (transports s ++ [options]))
    | (Fulfilled client, w) =>
        match client_listTools client w with
        | (Rejected e, w') =>
            (Returned tt,
             mkProcess _ w' (process_env s) (<[serverName := client]> (mcpClients s))
                       (mcpTools s)
                       (console s ++ [connecting serverName;
                                      failedToConnect serverName e])
                       (calls s) (transports s ++ [options]))
        | (Fulfilled tools, w') =>
            (Returned tt,
             mkProcess _ w' (process_env s) (<[serverName := client]> (mcpClients s))
                       (mcpTools s ++ map (Server.namespaced serverName) tools)
                       (console s
                        ++ [connecting serverName;
                            console_log ["Connected to " +:+ serverName +:+ ", loaded "
                                         +:+ pretty (length tools) +:+ " tools"]])
                       (calls s) (transports s ++ [options]))
        end
    end.
Proof.
  cbv zeta. unfold Server.registerServer. run.
  destruct (client_connect _ (world s)) as [[client|e] w]; simpl.
  - destruct (client_listTools client w) as [[tools|e] w']; simpl.
    + rewrite pushTools_spec. simpl. rewrite <- app_assoc. reflexivity.
    + rewrite <- app_assoc. reflexivity.
  - rewrite <- app_assoc. reflexivity.
Qed.

(** Registration never raises, keeps the tools it found registered, leaves
    [process.env] alone and creates one transport. *)
Lemma registerServer_frame serverName serverConfig s :
  exists added lines,
    (Server.registerServer serverName serverConfig s).1 = Returned tt
    /\ mcpTools (Server.registerServer serverName serverConfig s).2
       = mcpTools s ++ map (Server.namespaced serverName) added
    /\ console (Server.registerServer serverName serverConfig s).2 = console s ++ lines
    /\ process_env (Server.registerServer serverName serverConfig s).2 = process_env s
    /\ transports (Server.registerServer serverName serverConfig s).2
       = transports s ++ [Server.transportOptions (process_env s) serverConfig]
    /\ calls (Server.registerServer serverName serverConfig s).2 = calls s.
Proof.
  rewrite registerServer_spec. cbv zeta.
  destruct (client_connect _ (world s)) as [[client|e] w].
  - destruct (client_listTools client w) as [[tools|e] w'].
    + exists tools. eexists. simpl. repeat split; reflexivity.
    + exists []. eexists. simpl. rewrite app_nil_r. repeat split; reflexivity.
  - exists []. eexists. simpl. rewrite app_nil_r. repeat split; reflexivity.
Qed.

Lemma registerServers_cons serverName serverConfig rest s :
  Server.registerServers ((serverName, serverConfig) :: rest) s
  = Server.registerServers rest (Server.registerServer serverName serverConfig s).2.
Proof.
  simpl. unfold mbind, M_bind.
  destruct (registerServer_frame serverName serverConfig s) as (? & ? & Hret & _).
  destruct (Server.registerServer serverName serverConfig s) as [o s'].
  simpl in *. subst o. reflexivity.
Qed.

Lemma registerServers_app before after s :
  Server.registerServers (before ++ after) s
  = Server.registerServers after (Server.registerServers before s).2.
Proof.
  revert s. induction before as [|[serverName serverConfig] rest IH]; intros s.
  - reflexivity.
  - rewrite <- app_comm_cons, !registerServers_cons. apply IH.
Qed.

Lemma registerServers_frame entries s :
  exists later lines,
    (Server.registerServers entries s).1 = Returned tt
    /\ mcpTools (Server.registerServers entries s).2 = mcpTools s ++ later
    /\ console (Server.registerServers entries s).2 = console s ++ lines
    /\ process_env (Server.registerServers entries s).2 = process_env s
    /\ transports (Server.registerServers entries s).2
       = transports s
         ++ map (fun entry => Server.transportOptions (process_env s) entry.2) entries
    /\ calls (Server.registerServers entries s).2 = calls s.
Proof.
  revert s. induction entries as [|[serverName serverConfig] rest IH]; intros s.
  - exists [], []. simpl. rewrite !app_nil_r. repeat split; reflexivity.
  - rewrite registerServers_cons.
    destruct (registerServer_frame serverName serverConfig s)
      as (added & lines & _ & Htools & Hconsole & Henv & Htransports & Hcalls).
    destruct (IH (Server.registerServer serverName serverConfig s).2)
      as (later & lines' & Hret & Htools' & Hconsole' & Henv' & Htransports' & Hcalls').
    exists (map (Server.namespaced serverName) added ++ later), (lines ++ lines').
    rewrite Hret, Htools', Htools, Hconsole', Hconsole, Henv', Henv, Htransports',
      Htransports, Hcalls', Hcalls, Henv.
    simpl. rewrite <- !app_assoc. repeat split; reflexivity.
Qed.

(** [initializeMCP] is the loop followed by one line on the console. *)
Lemma initializeMCP_spec entries s :
  let s' := (Server.registerServers entries s).2 in
  Server.initializeMCP entries s
  = (Returned tt,
     mkProcess _ (world s') (process_env s') (mcpClients s') (mcpTools s')
               (console s'
                ++ [console_log ["Total MCP tools available: "
                                 +:+ pretty (length (mcpTools s'))]])
               (calls s') (transports s')).
Proof.
  cbv zeta. unfold Server.initializeMCP. run.
  destruct (registerServers_frame entries s) as (? & ? & Hret & _).
  destruct (Server.registerServers entries s) as [o s']. simpl in *. subst o.
  reflexivity.
Qed.

(** The three ways [callMCPTool] goes, spelled out. *)
Lemma callMCPTool_spec toolName args s :
  Server.callMCPTool toolName args s
  = match List.find (fun t => String.eqb (Tool.name t) toolName) (mcpTools s) with
    | None => (Thrown (mkError ("Tool not found: " +:+ toolName)), s)
    | Some tool =>
        match mcpClients s !! Tool._serverName tool with
        | None =>
            (Thrown (mkError ("MCP client not found: " +:+ Tool._serverName tool)), s)
        | Some client =>
            let r := client_callTool client (Tool._originalName tool) args (world s) in
            (settle r.1, setWorld r.2 s)
        end
    end.
Proof.
  unfold Server.callMCPTool. run.
  destruct (List.find _ (mcpTools s)) as [tool|]; [|reflexivity].
  destruct (mcpClients s !! Tool._serverName tool); reflexivity.
Qed.

Lemma registerServer_clientsCover serverName serverConfig s :
  clientsCover s -> clientsCover (Server.registerServer serverName serverConfig s).2.
Proof.
  intros Hcover. rewrite registerServer_spec. cbv zeta.
  assert (Hkeep : forall client tool,
             tool ∈ mcpTools s ->
             is_Some (<[serverName := client]> (mcpClients s) !! Tool._serverName tool)).
  { intros client tool Htool.
    destruct (decide (serverName = Tool._serverName tool)) as [->|Hne].
    - rewrite lookup_insert_eq. eauto.
    - rewrite lookup_insert_ne by exact Hne. apply Hcover. exact Htool. }
  destruct (client_connect _ (world s)) as [[client|e] w]; [|exact Hcover].
  destruct (client_listTools client w) as [[tools|e] w']; intros tool Htool;
    cbn [mcpTools mcpClients snd] in *.
  - apply elem_of_app in Htool as [Htool|Htool]; [apply Hkeep; exact Htool|].
    apply list_elem_of_fmap in Htool as (listed & -> & _). simpl.
    rewrite lookup_insert_eq. eauto.
  - apply Hkeep. exact Htool.
Qed.

Lemma registerServers_clientsCover entries : forall s,
  clientsCover s -> clientsCover (Server.registerServers entries s).2.
Proof.
  induction entries as [|[serverName serverConfig] rest IH]; intros s Hcover.
  - exact Hcover.
  - rewrite registerServers_cons. apply IH. apply registerServer_clientsCover.
    exact Hcover.
Qed.

Lemma registerServers_other_client entries : forall s serverName,
  serverName ∉ map fst entries ->
  mcpClients (Server.registerServers entries s).2 !! serverName
  = mcpClients s !! serverName.
Proof.
  induction entries as [|[name serverConfig] rest IH]; intros s serverName Hnotin.
  - reflexivity.
  - rewrite registerServers_cons. simpl in Hnotin.
    apply not_elem_of_cons in Hnotin as [Hne Hnotin].
    rewrite IH by exact Hnotin. rewrite registerServer_spec. cbv zeta.
    destruct (client_connect _ (world s)) as [[client|e] w]; [|reflexivity].
    destruct (client_listTools client w) as [[tools|e] w']; cbn [mcpClients snd];
      apply lookup_insert_ne; congruence.
Qed.

Lemma registerServer_other_client serverName serverConfig s name :
  name <> serverName ->
  mcpClients (Server.registerServer serverName serverConfig s).2 !! name
  = mcpClients s !! name.
Proof.
  intros Hne. rewrite registerServer_spec. cbv zeta.
  destruct (client_connect _ (world s)) as [[client|e] w]; [|reflexivity].
  destruct (client_listTools client w) as [[tools|e] w']; cbn [mcpClients snd];
    apply lookup_insert_ne; congruence.
Qed.

Lemma registerServer_sets_client serverName serverConfig s client :
  (client_connect (Server.transportOptions (process_env s) serverConfig) (world s)).1
  = Fulfilled client ->
  mcpClients (Server.registerServer serverName serverConfig s).2 !! serverName
  = Some client.
Proof.
  intros Hconnect. rewrite registerServer_spec. cbv zeta.
  destruct (client_connect _ (world s)) as [[client'|e] w]; simpl in Hconnect;
    [|discriminate].
  injection Hconnect as ->.
  destruct (client_listTools client w) as [[tools|e] w']; cbn [mcpClients snd];
    apply lookup_insert_eq.
Qed.

Lemma find_app_l {A} (f : A -> bool) (l1 l2 : list A) (x : A) :
  List.find f l1 = Some x -> List.find f (l1 ++ l2) = Some x.
Proof.
  induction l1 as [|a l1 IH]; simpl; [discriminate|].
  destruct (f a); [trivial | exact IH].
Qed.

End Registry.

Section RegistryClaims.
Context `{Platform}.

(** C9. The environment handed to the transport of every configured
    provider is the whole process environment merged with the provider's
    configured [env] entries, a configured entry winning over a process
    variable of the same name, with the references substituted afterwards:
    every provider process inherits every process environment variable. *)
Theorem transport_inherits_process_env (entries : list (string * ServerConfig.t))
    (s : Process) :
  let s' := (Server.initializeMCP entries s).2 in
  let penv := process_env s in
  transports s'
  = transports s ++ map (fun entry => Server.transportOptions penv entry.2) entries
  /\ forall serverConfig : ServerConfig.t,
       let env := TransportOptions.env (Server.transportOptions penv serverConfig) in
       dom penv ⊆ dom env
       /\ (forall key : string,
             env !! key
             = Server.substitute penv
                 <$> match default ∅ (ServerConfig.env serverConfig) !! key with
                     | Some value => Some value
                     | None => JStr <$> penv !! key
                     end)
       /\ (forall (key v : string),
             penv !! key = Some v ->
             default ∅ (ServerConfig.env serverConfig) !! key = None ->
             Server.startsWith "$" v = false ->
             env !! key = Some (Data (JStr v))).
Proof.
  cbv zeta. split.
  - rewrite initializeMCP_spec. simpl.
    destruct (registerServers_frame entries s) as (? & ? & _ & _ & _ & _ & Ht & _).
    exact Ht.
  - intros serverConfig. split; [|split].
    + intros key Hkey. apply elem_of_dom in Hkey as [v Hv].
      apply elem_of_dom. rewrite transport_env_lookup, Hv.
      destruct (default ∅ (ServerConfig.env serverConfig) !! key); simpl; eauto.
    + intros key. apply transport_env_lookup.
    + intros key v Hv Hcfg Hplain.
      rewrite transport_env_lookup, Hcfg, Hv.
      change (Some (Server.substitute (process_env s) (JStr v))
              = Some (Data (JStr v))).
      unfold Server.substitute. rewrite Hplain. reflexivity.
Qed.

Lemma find_registered (tool : Tool.t) (tools : list Tool.t) :
  tool ∈ tools ->
  is_Some (List.find (fun t => String.eqb (Tool.name t) (Tool.name tool)) tools).
Proof.
  intros Hin.
  destruct (List.find _ tools) as [t|] eqn:Hfind; [eauto|].
  apply list_elem_of_In in Hin.
  pose proof (List.find_none _ _ Hfind _ Hin) as Hno. simpl in Hno.
  rewrite String.eqb_refl in Hno. discriminate.
Qed.

(** C8. Whatever the list of provider configurations, initialization never
    raises. When connecting to a provider, or listing its tools, fails, the
    provider adds no tool to the registry and the failure is written to the
    console; when both succeed, all its tools are registered; and whatever
    happens to the providers after it, the tools registered so far stay in
    the registry and can be looked up by name. They also stay callable: the
    client of a connected provider is stored and is not lost to what comes
    after, and a call by the name of a registered tool is forwarded to the
    stored client of a tool registered so far, never answered with "Tool
    not found" or "MCP client not found". *)
Theorem provider_failure_is_contained
    (before : list (string * ServerConfig.t)) (serverName : string)
    (serverConfig : ServerConfig.t) (after : list (string * ServerConfig.t))
    (s : Process) :
  let entries := before ++ (serverName, serverConfig) :: after in
  let s1 := (Server.registerServers before s).2 in
  let s2 := (Server.registerServer serverName serverConfig s1).2 in
  let s' := (Server.initializeMCP entries s).2 in
  let connected :=
    client_connect (Server.transportOptions (process_env s1) serverConfig) (world s1) in
  (Server.initializeMCP entries s).1 = Returned tt
  /\ (forall e,
        connected.1 = Rejected e
        \/ (exists client, connected.1 = Fulfilled client
                           /\ (client_listTools client connected.2).1 = Rejected e) ->
        mcpTools s2 = mcpTools s1
        /\ failedToConnect serverName e ∈ console s')
  /\ (forall client tools,
        connected.1 = Fulfilled client ->
        (client_listTools client connected.2).1 = Fulfilled tools ->
        mcpTools s2 = mcpTools s1 ++ map (Server.namespaced serverName) tools)
  /\ (exists later, mcpTools s' = mcpTools s2 ++ later)
  /\ (forall tool, tool ∈ mcpTools s2 ->
        tool ∈ mcpTools s'
        /\ is_Some (List.find (fun t => String.eqb (Tool.name t) (Tool.name tool))
                              (mcpTools s')))
  /\ (forall client, connected.1 = Fulfilled client ->
        mcpClients s2 !! serverName = Some client)
  /\ (forall name, name <> serverName -> mcpClients s2 !! name = mcpClients s1 !! name)
  /\ (forall name client,
        mcpClients s2 !! name = Some client ->
        name ∉ map fst after ->
        mcpClients s' !! name = Some client)
  /\ (mcpTools s = [] ->
      forall (tool : Tool.t) (args : Json),
        tool ∈ mcpTools s2 ->
        is_Some (mcpClients s' !! Tool._serverName tool)
        /\ exists target client,
             List.find (fun t => String.eqb (Tool.name t) (Tool.name tool))
                       (mcpTools s') = Some target
             /\ target ∈ mcpTools s2
             /\ mcpClients s' !! Tool._serverName target = Some client
             /\ Server.callMCPTool (Tool.name tool) args s'
                = (settle (client_callTool client (Tool._originalName target) args
                             (world s')).1,
                   setWorld (client_callTool client (Tool._originalName target) args
                               (world s')).2 s')).
Proof.
  cbv zeta.
  set (s1 := (Server.registerServers before s).2).
  set (s2 := (Server.registerServer serverName serverConfig s1).2).
  assert (Hfinal : (Server.registerServers
                      (before ++ (serverName, serverConfig) :: after) s).2
                   = (Server.registerServers after s2).2).
  { rewrite registerServers_app, registerServers_cons. reflexivity. }
  destruct (registerServers_frame after s2)
    as (later & lines & _ & Hlater & Hconsole & _).
  assert (Htools : mcpTools (Server.initializeMCP
                               (before ++ (serverName, serverConfig) :: after) s).2
                   = mcpTools s2 ++ later).
  { rewrite initializeMCP_spec. simpl. rewrite Hfinal. exact Hlater. }
  assert (Hclients : mcpClients (Server.initializeMCP
                                   (before ++ (serverName, serverConfig) :: after) s).2
                     = mcpClients (Server.registerServers after s2).2).
  { rewrite initializeMCP_spec. simpl. rewrite Hfinal. reflexivity. }
  assert (Hlines : forall entry, entry ∈ console s2 ->
             entry ∈ console (Server.initializeMCP
                               (before ++ (serverName, serverConfig) :: after) s).2).
  { intros entry Hentry. rewrite initializeMCP_spec. simpl.
    rewrite Hfinal, Hconsole. rewrite !elem_of_app. auto. }
  split; [rewrite initializeMCP_spec; reflexivity|].
  split.
  { intros e Hfail.
    assert (Hstep : mcpTools s2 = mcpTools s1
                    /\ failedToConnect serverName e ∈ console s2).
    { unfold s2. rewrite registerServer_spec. cbv zeta.
      destruct (client_connect _ (world s1)) as [[client|e0] w]; simpl in Hfail.
      - destruct Hfail as [Hfail | (client' & Hc & Hfail)]; [discriminate|].
        injection Hc as <-.
        destruct (client_listTools client w) as [[tools|e1] w']; simpl in Hfail;
          [discriminate|].
        injection Hfail as ->. simpl. split; [reflexivity|].
        rewrite elem_of_app, !elem_of_cons. auto.
      - destruct Hfail as [Hfail | (client' & Hc & _)]; [|discriminate].
        injection Hfail as ->. simpl. split; [reflexivity|].
        rewrite elem_of_app, !elem_of_cons. auto. }
    destruct Hstep as [Hsame Hline].
    split; [exact Hsame | apply Hlines; exact Hline]. }
  split.
  { intros client tools Hc Hl. unfold s2. rewrite registerServer_spec. cbv zeta.
    destruct (client_connect _ (world s1)) as [[client'|e0] w]; simpl in Hc;
      [|discriminate].
    injection Hc as ->. simpl in Hl.
    destruct (client_listTools client w) as [[tools'|e1] w']; simpl in Hl;
      [|discriminate].
    injection Hl as ->. reflexivity. }
  split; [exists later; exact Htools|].
  split.
  { intros tool Htool.
    assert (Hin : tool ∈ mcpTools (Server.initializeMCP
                                     (before ++ (serverName, serverConfig) :: after) s).2).
    { rewrite Htools, elem_of_app. auto. }
    split; [exact Hin | apply find_registered; exact Hin]. }
  split.
  { intros client Hc. apply registerServer_sets_client. exact Hc. }
  split.
  { intros name Hne. apply registerServer_other_client. exact Hne. }
  split.
  { intros name client Hclient Hnotin.
    rewrite Hclients, registerServers_other_client by exact Hnotin. exact Hclient. }
  intros Hempty tool args Htool.
  assert (Hcover : clientsCover (Server.registerServers after s2).2).
  { apply registerServers_clientsCover. apply registerServer_clientsCover.
    apply registerServers_clientsCover. intros t Ht. rewrite Hempty in Ht.
    apply elem_of_nil in Ht. contradiction. }
  destruct (find_registered tool _ Htool) as [target Hfind].
  assert (Htarget : target ∈ mcpTools s2).
  { apply list_elem_of_In. eapply List.find_some. exact Hfind. }
  assert (Hfind' : List.find (fun t => String.eqb (Tool.name t) (Tool.name tool))
                     (mcpTools s2 ++ later) = Some target)
    by (apply find_app_l; exact Hfind).
  rewrite Hclients, Htools.
  split.
  { apply Hcover. rewrite Hlater, elem_of_app. auto. }
  destruct (Hcover target) as [client Hclient].
  { rewrite Hlater, elem_of_app. auto. }
  exists target, client.
  split; [exact Hfind'|]. split; [exact Htarget|]. split; [exact Hclient|].
  rewrite callMCPTool_spec, Htools, Hclients, Hfind', Hclient. reflexivity.
Qed.

End RegistryClaims.

(** A provider configured with [MODE] and a reference to [BRAVE_API_KEY]
    also gets the [PATH] of the process. *)
Lemma transport_env_example :
  let penv : gmap string string :=
    {[ "PATH" := "/usr/bin"; "BRAVE_API_KEY" := "key" ]} in
  let serverConfig :=
    ServerConfig.mk "brave-mcp" None
      (Some {[ "MODE" := JStr "fast"; "BRAVE_API_KEY" := JStr "$BRAVE_API_KEY" ]}) in
  let env := TransportOptions.env (Server.transportOptions penv serverConfig) in
  env !! "PATH" = Some (Data (JStr "/usr/bin"))
  /\ env !! "BRAVE_API_KEY" = Some (Data (JStr "key"))
  /\ env !! "MODE" = Some (Data (JStr "fast")).
Proof.
  cbv zeta.
  destruct (@transport_inherits_process_env demoPlatform []
              (@start demoPlatform 0 {[ "PATH" := "/usr/bin"; "BRAVE_API_KEY" := "key" ]}))
    as [_ Henv].
  destruct (Henv (ServerConfig.mk "brave-mcp" None
                    (Some {[ "MODE" := JStr "fast";
                             "BRAVE_API_KEY" := JStr "$BRAVE_API_KEY" ]})))
    as (_ & Hlookup & Hinherited).
  split; [apply Hinherited; reflexivity|].
  split; rewrite Hlookup; reflexivity.
Defined.

(** * Qualified names *)

Section QualifiedNames.

Lemma length_append (a b : string) :
  String.length (a +:+ b) = String.length a + String.length b.
Proof. induction a as [|c a IH]; simpl; [reflexivity | rewrite IH; reflexivity]. Qed.

Lemma append_cancel_r (p1 p2 suffix : string) :
  p1 +:+ suffix = p2 +:+ suffix -> p1 = p2.
Proof.
  revert p2. induction p1 as [|c p1 IH]; intros [|c' p2] Heq.
  - reflexivity.
  - apply (f_equal String.length) in Heq.
    rewrite !length_append in Heq. simpl in Heq. lia.
  - apply (f_equal String.length) in Heq.
    rewrite !length_append in Heq. simpl in Heq. lia.
  - simpl in Heq. injection Heq as -> Heq. f_equal. apply IH. exact Heq.
Qed.

Lemma separable_tail c rest : separable (String c rest) = true -> separable rest = true.
Proof.
  simpl. destruct (Ascii.eqb c "_").
  - destruct rest as [|d rest]; [discriminate|].
    intros Hs. apply andb_true_iff in Hs as [_ Hs]. exact Hs.
  - auto.
Qed.

(** A separable provider name is not followed by the separator earlier than
    at its end. *)
Lemma separator_first (p n n' : string) :
  separable p = true -> "__" +:+ n' = p +:+ "__" +:+ n -> p = "".
Proof.
  intros Hs Heq. destruct p as [|c [|d p]]; [reflexivity | |].
  - simpl in Heq. injection Heq as <- _. discriminate Hs.
  - simpl in Heq. injection Heq as <- <- _. discriminate Hs.
Qed.

Lemma qualifiedName_inj (p1 p2 n1 n2 : string) :
  separable p1 = true -> separable p2 = true ->
  Server.qualifiedName p1 n1 = Server.qualifiedName p2 n2 -> p1 = p2 /\ n1 = n2.
Proof.
  unfold Server.qualifiedName.
  revert p2. induction p1 as [|c p1 IH]; intros p2 Hs1 Hs2 Heq.
  - assert (p2 = "") as -> by (eapply separator_first; eassumption).
    cbn in Heq. injection Heq as Heq. split; [reflexivity | exact Heq].
  - destruct p2 as [|c' p2].
    + assert (String c p1 = "") as Hnil
          by (eapply separator_first; [exact Hs1 | symmetry; exact Heq]).
      discriminate Hnil.
    + simpl in Heq. injection Heq as -> Heq.
      destruct (IH p2) as [-> ->]; eauto using separable_tail.
Qed.

Lemma qualifiedName_same_local (p1 p2 n : string) :
  p1 <> p2 -> Server.qualifiedName p1 n <> Server.qualifiedName p2 n.
Proof.
  intros Hne Heq. apply Hne. unfold Server.qualifiedName in Heq.
  eapply append_cancel_r. exact Heq.
Qed.

End QualifiedNames.

Section UniqueNames.
Context `{Platform}.

Lemma qualifiedBy_weaken names names' tools :
  names ⊆ names' -> qualifiedBy names tools -> qualifiedBy names' tools.
Proof.
  intros Hsub [Hnodup Hq]. split; [exact Hnodup|].
  intros tool Htool. destruct (Hq tool Htool) as (p & n & Hp & Hname).
  exists p, n. split; [apply Hsub; exact Hp | exact Hname].
Qed.

Lemma qualifiedBy_add names serverName added tools :
  qualifiedBy names tools ->
  serverName ∉ names ->
  separable serverName = true ->
  (forall p, p ∈ names -> separable p = true) ->
  NoDup (map ListedTool.name added) ->
  qualifiedBy (names ++ [serverName])
              (tools ++ map (Server.namespaced serverName) added).
Proof.
  intros [Hnodup Hq] Hfresh Hsep Hseps Hadded. split.
  - rewrite map_app. apply NoDup_app. split; [exact Hnodup|]. split.
    + intros x Hold Hnew.
      apply list_elem_of_fmap in Hold as (tool & -> & Htool).
      apply list_elem_of_fmap in Hnew as (tool' & Heq & Htool').
      apply list_elem_of_fmap in Htool' as (listed & -> & _).
      destruct (Hq tool Htool) as (p & n & Hp & Hname).
      simpl in Heq. rewrite Hname in Heq.
      apply qualifiedName_inj in Heq as [-> _]; auto.
    + rewrite map_map. simpl.
      change (NoDup (map (fun x => Server.qualifiedName serverName (ListedTool.name x))
                         added)).
      rewrite <- (map_map ListedTool.name (Server.qualifiedName serverName)).
      assert (Hinj : Inj (=) (=) (Server.qualifiedName serverName)).
      { intros a b Hab. unfold Server.qualifiedName in Hab.
        apply (inj (String.app serverName)) in Hab.
        apply (inj (String.app "__")) in Hab. exact Hab. }
      apply (NoDup_fmap_2 (Server.qualifiedName serverName)). exact Hadded.
  - intros tool Htool. apply elem_of_app in Htool as [Htool|Htool].
    + destruct (Hq tool Htool) as (p & n & Hp & Hname).
      exists p, n. split; [apply elem_of_app; auto | exact Hname].
    + apply list_elem_of_fmap in Htool as (listed & -> & _).
      exists serverName, (ListedTool.name listed).
      split; [apply elem_of_app; right; apply list_elem_of_singleton; reflexivity|].
      reflexivity.
Qed.

Lemma registerServer_qualifiedBy names serverName serverConfig s :
  (forall client w tools,
      (client_listTools client w).1 = Fulfilled tools ->
      NoDup (map ListedTool.name tools)) ->
  qualifiedBy names (mcpTools s) ->
  serverName ∉ names ->
  separable serverName = true ->
  (forall p, p ∈ names -> separable p = true) ->
  qualifiedBy (names ++ [serverName])
              (mcpTools (Server.registerServer serverName serverConfig s).2).
Proof.
  intros Hlisting Hq Hfresh Hsep Hseps.
  assert (Hkeep : qualifiedBy (names ++ [serverName]) (mcpTools s)).
  { eapply qualifiedBy_weaken; [|exact Hq]. intros p Hp. apply elem_of_app. auto. }
  rewrite registerServer_spec. cbv zeta.
  destruct (client_connect _ (world s)) as [[client|e] w]; [|exact Hkeep].
  destruct (client_listTools client w) as [[tools|e] w'] eqn:Hl; [|exact Hkeep].
  simpl. apply qualifiedBy_add; auto.
  apply (Hlisting client w). rewrite Hl. reflexivity.
Qed.

Lemma registerServers_qualifiedBy entries : forall names s,
  (forall client w tools,
      (client_listTools client w).1 = Fulfilled tools ->
      NoDup (map ListedTool.name tools)) ->
  qualifiedBy names (mcpTools s) ->
  NoDup (names ++ map fst entries) ->
  (forall p, p ∈ names ++ map fst entries -> separable p = true) ->
  qualifiedBy (names ++ map fst entries)
              (mcpTools (Server.registerServers entries s).2).
Proof.
  induction entries as [|[serverName serverConfig] rest IH];
    intros names s Hlisting Hq Hnodup Hseps.
  - simpl. rewrite app_nil_r. exact Hq.
  - rewrite registerServers_cons. simpl in *.
    replace (names ++ serverName :: map fst rest)
      with ((names ++ [serverName]) ++ map fst rest) in *
      by (rewrite <- app_assoc; reflexivity).
    apply IH; auto.
    apply registerServer_qualifiedBy; auto.
    + apply NoDup_app in Hnodup as (Hn & _ & _).
      apply NoDup_app in Hn as (_ & Hdisj & _).
      intros Hin. apply (Hdisj serverName Hin). apply list_elem_of_singleton.
      reflexivity.
    + apply Hseps. rewrite !elem_of_app. left. right.
      apply list_elem_of_singleton. reflexivity.
    + intros p Hp. apply Hseps. rewrite !elem_of_app. auto.
Qed.

(** C3, as stated, fails: the providers [a] (with a tool [b__c]) and
    [a__b] (with a tool [c]) are distinct and their tools have different
    local names, yet both tools are registered as [a__b__c]. *)
Lemma separator_collision :
  let final :=
    (@Server.initializeMCP collidingPlatform collidingEntries
       (@start collidingPlatform 0 ∅)).2 in
  map Tool.name (@mcpTools collidingPlatform final) = ["a__b__c"; "a__b__c"]
  /\ ~ NoDup (map Tool.name (@mcpTools collidingPlatform final)).
Proof.
  cbv zeta.
  assert (Hnames : map Tool.name
                     (@mcpTools collidingPlatform
                        (@Server.initializeMCP collidingPlatform collidingEntries
                           (@start collidingPlatform 0 ∅)).2)
                   = ["a__b__c"; "a__b__c"]) by (vm_compute; reflexivity).
  split; [exact Hnames|].
  rewrite Hnames. intros Hnodup. apply NoDup_cons in Hnodup as [Hnotin _].
  apply Hnotin. apply list_elem_of_singleton. reflexivity.
Qed.

(** C3 (amended). Two distinct providers that expose a tool with the same
    local name give it distinct qualified names. Every qualified name in
    the registry's tool list is distinct from every other provided that no
    provider name contains two underscores in a row or ends with an
    underscore and that no provider reports the same local name twice. *)
Theorem qualified_names_distinct (entries : list (string * ServerConfig.t))
    (s : Process) :
  (forall p1 p2 localName,
      p1 <> p2 ->
      Server.qualifiedName p1 localName <> Server.qualifiedName p2 localName)
  /\ (mcpTools s = [] ->
      NoDup (map fst entries) ->
      (forall serverName, serverName ∈ map fst entries -> separable serverName = true) ->
      (forall client w tools,
          (client_listTools client w).1 = Fulfilled tools ->
          NoDup (map ListedTool.name tools)) ->
      NoDup (map Tool.name (mcpTools (Server.initializeMCP entries s).2))).
Proof.
  split; [intros p1 p2 localName; apply qualifiedName_same_local|].
  intros Hempty Hnodup Hseps Hlisting.
  rewrite initializeMCP_spec. simpl.
  destruct (registerServers_qualifiedBy entries [] s) as [Hdistinct _]; auto.
  rewrite Hempty. split; [constructor|]. intros tool Htool.
  apply elem_of_nil in Htool. contradiction.
Qed.

End UniqueNames.

(** The demo registry: [brave-search] and [fetch] both report [search], and
    the three registered names are distinct. *)
Lemma qualified_names_distinct_example :
  NoDup (map Tool.name (@mcpTools demoPlatform demoProcess)).
Proof.
  apply (proj2 (@qualified_names_distinct demoPlatform demoEntries
                  (@start demoPlatform 0 {[ "BRAVE_API_KEY" := "key" ]}))).
  - reflexivity.
  - apply (bool_decide_unpack _). vm_compute. exact I.
  - intros serverName Hin. simpl in Hin.
    rewrite !elem_of_cons in Hin.
    destruct Hin as [-> | [-> | [-> | Hin]]]; try reflexivity.
    apply elem_of_nil in Hin. contradiction.
  - intros client w tools. simpl. unfold demoListing.
    destruct (String.eqb client "brave-mcp"); intros [= <-];
      apply (bool_decide_unpack _); vm_compute; exact I.
Defined.

(** In the demo configuration [broken] fails to launch: it adds no tool,
    the failure is on the console, and [brave-search] and [fetch] are
    served: the client of [brave-search] is still stored at the end, and a
    call of [brave-search__search] reaches it. *)
Lemma provider_failure_example :
  let s1 := (@Server.registerServers demoPlatform (take 1 demoEntries)
               (@start demoPlatform 0 {[ "BRAVE_API_KEY" := "key" ]})).2 in
  let s2 := (@Server.registerServer demoPlatform "broken"
               (ServerConfig.mk "" None None) s1).2 in
  (@mcpTools demoPlatform s2 = @mcpTools demoPlatform s1
   /\ failedToConnect "broken" (mkError "spawn ENOENT")
        ∈ @console demoPlatform demoProcess)
  /\ map Tool.name (@mcpTools demoPlatform demoProcess)
     = ["brave-search__search"; "brave-search__news"; "fetch__search"]
  /\ @mcpClients demoPlatform demoProcess !! "brave-search" = Some "brave-mcp"
  /\ exists result,
       (@Server.callMCPTool demoPlatform "brave-search__search" JNull demoProcess).1
       = Returned result.
Proof.
  cbv zeta.
  destruct (@provider_failure_is_contained demoPlatform
              (take 1 demoEntries) "broken" (ServerConfig.mk "" None None)
              (drop 2 demoEntries)
              (@start demoPlatform 0 {[ "BRAVE_API_KEY" := "key" ]}))
    as (_ & Hfail & _ & _ & _ & _ & _ & Hkept & Hcallable).
  split; [apply (Hfail (mkError "spawn ENOENT")); left; reflexivity|].
  split; [vm_compute; reflexivity|].
  split.
  { apply Hkept; [vm_compute; reflexivity|].
    simpl. rewrite !elem_of_cons, elem_of_nil.
    intros [Heq | [ ]]. discriminate Heq. }
  destruct (Hcallable eq_refl
              (Tool.mk "brave-search__search" (Some "Search the web") noTools
                       "brave-search" "search") JNull)
    as (_ & target & client & Hfind & _ & Hclient & Hcall).
  { apply list_elem_of_In. vm_compute. left. reflexivity. }
  cbn [Tool.name] in Hfind, Hcall.
  assert (Htarget : target = Tool.mk "brave-search__search" (Some "Search the web")
                               noTools "brave-search" "search").
  { vm_compute in Hfind. injection Hfind as <-. reflexivity. }
  subst target. cbn [Tool._serverName Tool._originalName] in Hclient, Hcall.
  assert (Hc : client = "brave-mcp").
  { vm_compute in Hclient. injection Hclient as <-. reflexivity. }
  subst client.
  unfold demoProcess.
  replace demoEntries
    with (take 1 demoEntries ++ ("broken", ServerConfig.mk "" None None)
            :: drop 2 demoEntries) by reflexivity.
  rewrite Hcall. eexists. vm_compute. reflexivity.
Defined.

(** * The tool-use loop *)

Section ToolCalls.
Context `{Platform}.

Lemma sameRegistry_refl s : sameRegistry s s.
Proof. repeat split. Qed.

Lemma sameRegistry_trans s1 s2 s3 :
  sameRegistry s1 s2 -> sameRegistry s2 s3 -> sameRegistry s1 s3.
Proof.
  intros (? & ? & ? & ? & ?) (? & ? & ? & ? & ?).
  repeat split; congruence.
Qed.

Lemma callMCPTool_settles toolName args s :
  (exists result, (Server.callMCPTool toolName args s).1 = Returned result)
  \/ (exists e, (Server.callMCPTool toolName args s).1 = Thrown e).
Proof.
  rewrite callMCPTool_spec.
  destruct (List.find _ (mcpTools s)) as [tool|]; [|right; eauto].
  destruct (mcpClients s !! Tool._serverName tool) as [client|]; [|right; eauto].
  cbv zeta. simpl.
  destruct (client_callTool client _ args (world s)) as [[result|e] w];
    simpl; eauto.
Qed.

Lemma callMCPTool_sameRegistry toolName args s :
  sameRegistry s (Server.callMCPTool toolName args s).2.
Proof.
  rewrite callMCPTool_spec.
  destruct (List.find _ (mcpTools s)) as [tool|]; [|apply sameRegistry_refl].
  destruct (mcpClients s !! Tool._serverName tool) as [client|];
    [|apply sameRegistry_refl].
  repeat split.
Qed.

(** What was written to the console has no bearing on a tool call. *)
Lemma callMCPTool_console toolName args entry s :
  (Server.callMCPTool toolName args (write entry s).2).1
  = (Server.callMCPTool toolName args s).1
  /\ world (Server.callMCPTool toolName args (write entry s).2).2
     = world (Server.callMCPTool toolName args s).2.
Proof.
  rewrite !callMCPTool_spec. unfold write. simpl.
  destruct (List.find _ (mcpTools s)) as [tool|]; [|split; reflexivity].
  destruct (mcpClients s !! Tool._serverName tool) as [client|];
    split; reflexivity.
Qed.

(** The body of the loop for a [tool_use] block, by the way the call goes. *)
Lemma dispatch_unfold id name input toolResults s :
  let failed error s1 :=
    (Returned (toolResults ++ [errorResult id error]),
     (write (console_error ["Tool error: " +:+ message error]) s1).2) in
  Server.dispatch (ToolUse id name input) toolResults s
  = match Server.callMCPTool name input
            (write (console_log ["Calling tool: " +:+ name]) s).2 with
    | (Returned result, s1) =>
        match Server.extractText result with
        | inr textContent =>
            (Returned (toolResults
                       ++ [ToolResult id (Server.contentOf textContent result) None]),
             s1)
        | inl error => failed error s1
        end
    | (Thrown error, s1) => failed error s1
    | (OutOfFuel, s1) => (OutOfFuel, s1)
    end.
Proof.
  cbv zeta. unfold Server.dispatch. run.
  destruct (Server.callMCPTool name input _) as [[result|e|] s1]; simpl;
    try reflexivity.
  destruct (Server.extractText result); reflexivity.
Qed.

(** One [tool_use] block is answered by one [tool_result] with its id: the
    text of the result, or the error the [try] block ran into. *)
Lemma dispatch_toolUse id name input s :
  exists toolResult s',
    (forall toolResults,
        Server.dispatch (ToolUse id name input) toolResults s
        = (Returned (toolResults ++ [toolResult]), s'))
    /\ sameRegistry s s'
    /\ ((exists result,
            (Server.callMCPTool name input s).1 = Returned result
            /\ toolResult
               = match Server.extractText result with
                 | inr textContent =>
                     ToolResult id (Server.contentOf textContent result) None
                 | inl error => errorResult id error
                 end)
        \/ (exists error,
               (Server.callMCPTool name input s).1 = Thrown error
               /\ toolResult = errorResult id error)).
Proof.
  set (s0 := (write (console_log ["Calling tool: " +:+ name]) s).2).
  destruct (callMCPTool_console name input (console_log ["Calling tool: " +:+ name]) s)
    as [Hsame _].
  fold s0 in Hsame.
  assert (Hs0 : sameRegistry s s0) by (repeat split).
  pose proof (callMCPTool_sameRegistry name input s0) as Hs1.
  pose proof (sameRegistry_trans _ _ _ Hs0 Hs1) as Hs.
  assert (Hfailed : forall s1, sameRegistry s s1 ->
             forall error,
               sameRegistry s
                 (write (console_error ["Tool error: " +:+ message error]) s1).2).
  { intros s1 (? & ? & ? & ? & ?) error. repeat split; assumption. }
  destruct (callMCPTool_settles name input s0) as [[result Hr] | [error Hr]];
    pose proof Hr as Hr'; rewrite Hsame in Hr';
    destruct (Server.callMCPTool name input s0) as [o s1] eqn:Hcall;
    simpl in Hr, Hs1, Hs; subst o.
  - destruct (Server.extractText result) as [error|textContent] eqn:Hx.
    + eexists _, _. split; [|split; [apply Hfailed; exact Hs|]].
      * intros toolResults. rewrite dispatch_unfold. cbv zeta. fold s0.
        rewrite Hcall, Hx. reflexivity.
      * left. exists result. rewrite Hx. split; [exact Hr' | reflexivity].
    + eexists _, _. split; [|split; [exact Hs|]].
      * intros toolResults. rewrite dispatch_unfold. cbv zeta. fold s0.
        rewrite Hcall, Hx. reflexivity.
      * left. exists result. rewrite Hx. split; [exact Hr' | reflexivity].
  - eexists _, _. split; [|split; [apply Hfailed; exact Hs|]].
    + intros toolResults. rewrite dispatch_unfold. cbv zeta. fold s0.
      rewrite Hcall. reflexivity.
    + right. exists error. split; [exact Hr' | reflexivity].
Qed.

Lemma toolUseIds_cons block rest :
  toolUseIds (block :: rest)
  = match block with
    | ToolUse id _ _ => id :: toolUseIds rest
    | _ => toolUseIds rest
    end.
Proof. destruct block; reflexivity. Qed.

Lemma toolUseIds_app pre post :
  toolUseIds (pre ++ post) = toolUseIds pre ++ toolUseIds post.
Proof. unfold toolUseIds. apply omap_app. Qed.

Lemma toolResultIds_app pre post :
  toolResultIds (pre ++ post) = toolResultIds pre ++ toolResultIds post.
Proof. unfold toolResultIds. apply map_app. Qed.

(** The [for] loop never raises: it returns [toolResults] followed by one
    [tool_result] per [tool_use] block, in the order of the blocks. *)
Lemma forBlocks_returns blocks : forall s,
  exists added s',
    (forall toolResults,
        Server.forBlocks blocks toolResults s = (Returned (toolResults ++ added), s'))
    /\ toolResultIds added = Some <$> toolUseIds blocks
    /\ sameRegistry s s'.
Proof.
  induction blocks as [|block rest IH]; intros s.
  - exists [], s. split; [|split; [reflexivity | apply sameRegistry_refl]].
    intros toolResults. simpl. unfold mret, M_ret. rewrite app_nil_r. reflexivity.
  - destruct block as [text | id name input | id content e | raw].
    2: { destruct (dispatch_toolUse id name input s)
           as (toolResult & s1 & Hd & Hs1 & Hcases).
         destruct (IH s1) as (added & s' & Hrest & Hids & Hs').
         exists (toolResult :: added), s'.
         split; [|split; [|eapply sameRegistry_trans; eassumption]].
         - intros toolResults. cbn [Server.forBlocks]. unfold mbind, M_bind.
           rewrite Hd, Hrest, <- app_assoc. reflexivity.
         - rewrite toolUseIds_cons. cbn [toolResultIds map fmap list_fmap].
           fold (toolResultIds added). rewrite Hids.
           destruct Hcases as [(result & _ & ->) | (error & _ & ->)]; [|reflexivity].
           destruct (Server.extractText result); reflexivity. }
    all: destruct (IH s) as (added & s' & Hrest & Hids & Hs').
    all: exists added, s'; rewrite toolUseIds_cons.
    all: split; [|split; assumption].
    all: intros toolResults; cbn [Server.forBlocks Server.dispatch].
    all: unfold mbind, M_bind, mret, M_ret; apply Hrest.
Qed.

(** The results the loop adds, and the state it ends in, do not depend on
    the results gathered before. *)
Lemma forBlocks_toolResultsFor blocks toolResults s :
  Server.forBlocks blocks toolResults s
  = (Returned (toolResults ++ toolResultsFor blocks s),
     (Server.forBlocks blocks [] s).2).
Proof.
  destruct (forBlocks_returns blocks s) as (added & s' & Hall & _).
  unfold toolResultsFor. rewrite !Hall. reflexivity.
Qed.

Lemma toolResultsFor_ids blocks s :
  toolResultIds (toolResultsFor blocks s) = Some <$> toolUseIds blocks.
Proof.
  destruct (forBlocks_returns blocks s) as (added & s' & Hall & Hids & _).
  unfold toolResultsFor. rewrite Hall. exact Hids.
Qed.

Lemma forBlocks_sameRegistry blocks s :
  sameRegistry s (Server.forBlocks blocks [] s).2.
Proof.
  destruct (forBlocks_returns blocks s) as (added & s' & Hall & _ & Hs).
  rewrite Hall. exact Hs.
Qed.

Lemma forBlocks_app pre post toolResults s :
  Server.forBlocks (pre ++ post) toolResults s
  = Server.forBlocks post (toolResults ++ toolResultsFor pre s)
                     (Server.forBlocks pre [] s).2.
Proof.
  revert toolResults s. induction pre as [|block rest IH]; intros toolResults s.
  - simpl. unfold toolResultsFor. simpl. rewrite app_nil_r. reflexivity.
  - destruct (forBlocks_returns [block] s) as (added & s1 & Hone & _).
    assert (Hcons : forall l acc,
               Server.forBlocks (block :: l) acc s
               = Server.forBlocks l (acc ++ added) s1).
    { intros l acc. specialize (Hone acc). cbn [Server.forBlocks] in *.
      unfold mbind, M_bind, mret, M_ret in *.
      destruct (Server.dispatch block acc s) as [[r| |] s2]; try discriminate.
      injection Hone as -> ->. reflexivity. }
    rewrite <- app_comm_cons, Hcons, IH.
    unfold toolResultsFor at 2. rewrite !Hcons. simpl.
    rewrite (forBlocks_toolResultsFor rest added s1). simpl.
    rewrite app_assoc. reflexivity.
Qed.

End ToolCalls.

Section Loop.
Context `{Platform}.

Lemma toolUsesAnswered_one x : toolUsesAnswered [x].
Proof. intros i q1 o1 q2 o2 _ Hnext. destruct i; discriminate Hnext. Qed.

Lemma toolUsesAnswered_cons q1 response q2 o2 rest toolResults :
  Response.stop_reason response = "tool_use" ->
  Request.messages q2
  = Request.messages q1
    ++ [Message.mk assistant (Blocks (Response.content response));
        Message.mk user (Blocks toolResults)] ->
  toolResultIds toolResults = Some <$> toolUseIds (Response.content response) ->
  toolUsesAnswered ((q2, o2) :: rest) ->
  toolUsesAnswered ((q1, Fulfilled response) :: (q2, o2) :: rest).
Proof.
  intros Hstop Hmessages Hids Hrest [|i] qa oa qb ob Ha Hb.
  - simpl in Ha, Hb. injection Ha as <- <-. injection Hb as <- <-.
    exists response, toolResults. auto.
  - apply (Hrest i qa oa qb ob); assumption.
Qed.

(** One iteration: the tool calls, then one call of the model. *)
Lemma iteration_spec systemPrompt tools messages response s :
  let toolResults := toolResultsFor (Response.content response) s in
  let s1 := (Server.forBlocks (Response.content response) [] s).2 in
  let messages' :=
    (messages ++ [Message.mk assistant (Blocks (Response.content response))])
    ++ [Message.mk user (Blocks toolResults)] in
  let request := Server.createRequest systemPrompt messages' tools in
  let r := anthropic_messages_create request (world s1) in
  Server.iteration systemPrompt tools messages response s
  = (match r.1 with
     | Fulfilled next => Returned (messages', next)
     | Rejected e => Thrown e
     end,
     mkProcess _ r.2 (process_env s1) (mcpClients s1) (mcpTools s1) (console s1)
               (calls s1 ++ [(request, r.1)]) (transports s1)).
Proof.
  cbv zeta. unfold Server.iteration, mbind, M_bind.
  rewrite forBlocks_toolResultsFor. simpl. unfold messages_create.
  destruct (anthropic_messages_create _ _) as [[next|e] w]; reflexivity.
Qed.

Lemma iteration_bind systemPrompt tools messages response s :
  let messages' :=
    messages ++ [Message.mk assistant (Blocks (Response.content response));
                 Message.mk user
                   (Blocks (toolResultsFor (Response.content response) s))] in
  Server.iteration systemPrompt tools messages response s
  = match messages_create (Server.createRequest systemPrompt messages' tools)
            (Server.forBlocks (Response.content response) [] s).2 with
    | (Returned next, s2) => (Returned (messages', next), s2)
    | (Thrown e, s2) => (Thrown e, s2)
    | (OutOfFuel, s2) => (OutOfFuel, s2)
    end.
Proof.
  cbv zeta. unfold Server.iteration, mbind, M_bind.
  destruct (forBlocks_returns (Response.content response) s)
    as (added & s' & Hall & _).
  unfold toolResultsFor. rewrite !Hall. cbn [app fst snd].
  rewrite <- app_assoc. cbn [app].
  destruct (messages_create _ s') as [[next|e|] s2]; reflexivity.
Qed.

(** The exchanges of the loop, linked to the exchange [(q, response)] that
    led into it. *)
Lemma toolUseLoop_trace fuel : forall systemPrompt tools messages response s q,
  Request.messages q = messages ->
  exists exchanges,
    calls (Server.toolUseLoop fuel systemPrompt tools messages response s).2
    = calls s ++ exchanges
    /\ toolUsesAnswered ((q, Fulfilled response) :: exchanges)
    /\ Forall (fun x => Request.tools x.1 = toolsParameter tools) exchanges.
Proof.
  induction fuel as [|fuel IH]; intros systemPrompt tools messages response s q Hq.
  - exists []. simpl.
    destruct (String.eqb (Response.stop_reason response) "tool_use"); simpl;
      rewrite app_nil_r; auto using toolUsesAnswered_one.
  - cbn [Server.toolUseLoop].
    destruct (String.eqb_spec (Response.stop_reason response) "tool_use")
      as [Hstop|Hstop].
    2: { exists []. simpl. rewrite app_nil_r. auto using toolUsesAnswered_one. }
    unfold mbind, M_bind. rewrite iteration_spec. cbv zeta.
    set (toolResults := toolResultsFor (Response.content response) s).
    set (s1 := (Server.forBlocks (Response.content response) [] s).2).
    set (messages' := (messages ++ _) ++ _).
    set (request := Server.createRequest systemPrompt messages' tools).
    pose proof (forBlocks_sameRegistry (Response.content response) s)
      as (_ & _ & _ & Hcalls & _).
    fold s1 in Hcalls.
    assert (Hlink : Request.messages request
                    = Request.messages q
                      ++ [Message.mk assistant (Blocks (Response.content response));
                          Message.mk user (Blocks toolResults)]).
    { rewrite Hq. unfold request, messages'. simpl. rewrite <- app_assoc. reflexivity. }
    pose proof (toolResultsFor_ids (Response.content response) s) as Hids.
    fold toolResults in Hids.
    destruct (anthropic_messages_create request (world s1)) as [[next|e] w] eqn:Hr;
      cbn [fst snd].
    + edestruct (IH systemPrompt tools messages' next
                    (mkProcess _ w (process_env s1) (mcpClients s1) (mcpTools s1)
                               (console s1)
                               (calls s1 ++ [(request, Fulfilled next)])
                               (transports s1))
                    request eq_refl)
        as (exchanges & Hcalls' & Hanswered & Htools).
      exists ((request, Fulfilled next) :: exchanges).
      split; [|split].
      * rewrite Hcalls'. simpl. rewrite Hcalls, <- app_assoc. reflexivity.
      * eapply toolUsesAnswered_cons; eauto.
      * constructor; [reflexivity | exact Htools].
    + exists [(request, Rejected e)]. simpl. rewrite Hcalls.
      split; [reflexivity|]. split.
      * eapply toolUsesAnswered_cons; eauto using toolUsesAnswered_one.
      * constructor; [reflexivity | constructor].
Qed.

(** The first request, and what follows it. *)
Lemma callClaudeAgent_spec fuel agentType userMessage previousContext s :
  let systemPrompt := Server.agentPrompts agentType in
  let messages := Server.initialMessages userMessage previousContext in
  let tools :=
    if String.eqb agentType "researcher" then Server.getAnthropicTools s else [] in
  let request := Server.createRequest systemPrompt messages tools in
  let r := anthropic_messages_create request (world s) in
  let s1 := mkProcess _ r.2 (process_env s) (mcpClients s) (mcpTools s) (console s)
                      (calls s ++ [(request, r.1)]) (transports s) in
  Server.callClaudeAgent fuel agentType userMessage previousContext s
  = match r.1 with
    | Fulfilled response =>
        Server.toolUseLoop fuel systemPrompt tools messages response s1
    | Rejected e => (Thrown e, s1)
    end.
Proof.
  cbv zeta. unfold Server.callClaudeAgent, mbind, M_bind, getProcess, messages_create.
  simpl. destruct (anthropic_messages_create _ (world s)) as [[response|e] w];
    reflexivity.
Qed.

Lemma callClaudeAgent_trace fuel agentType userMessage previousContext s :
  exists exchanges,
    calls (Server.callClaudeAgent fuel agentType userMessage previousContext s).2
    = calls s ++ exchanges
    /\ exchanges <> []
    /\ toolUsesAnswered exchanges
    /\ Forall (fun x =>
                 Request.tools x.1
                 = toolsParameter
                     (if String.eqb agentType "researcher"
                      then Server.getAnthropicTools s else []))
              exchanges.
Proof.
  rewrite callClaudeAgent_spec. cbv zeta.
  set (request := Server.createRequest _ _ _).
  destruct (anthropic_messages_create request (world s)) as [[response|e] w];
    cbn [fst snd].
  - edestruct (toolUseLoop_trace fuel (Server.agentPrompts agentType)
                 (if String.eqb agentType "researcher"
                  then Server.getAnthropicTools s else [])
                 (Server.initialMessages userMessage previousContext) response
                 (mkProcess _ w (process_env s) (mcpClients s) (mcpTools s) (console s)
                            (calls s ++ [(request, Fulfilled response)]) (transports s))
                 request eq_refl)
      as (exchanges & Hcalls & Hanswered & Htools).
    exists ((request, Fulfilled response) :: exchanges).
    rewrite Hcalls. simpl. rewrite <- app_assoc.
    split; [reflexivity|]. split; [discriminate|]. split; [exact Hanswered|].
    constructor; [reflexivity | exact Htools].
  - exists [(request, Rejected e)]. simpl.
    split; [reflexivity|]. split; [discriminate|].
    split; [apply toolUsesAnswered_one|].
    constructor; [reflexivity | constructor].
Qed.

(** C1. In every iteration of the agent loop each [tool_use] block of the
    model's latest response is answered by exactly one [tool_result] block
    with that block's id; the results are appended, in the order of their
    [tool_use] blocks, in a single user message that follows the assistant
    turn and precedes the next call of the model. *)
Theorem tool_uses_answered_in_order (fuel : nat) (agentType userMessage : string)
    (previousContext : option string) (s : Process) :
  exists exchanges,
    calls (Server.callClaudeAgent fuel agentType userMessage previousContext s).2
    = calls s ++ exchanges
    /\ forall (i : nat) q1 o1 q2 o2,
         exchanges !! i = Some (q1, o1) ->
         exchanges !! S i = Some (q2, o2) ->
         exists response toolResults,
           o1 = Fulfilled response
           /\ Response.stop_reason response = "tool_use"
           /\ Request.messages q2
              = Request.messages q1
                ++ [Message.mk assistant (Blocks (Response.content response));
                    Message.mk user (Blocks toolResults)]
           /\ toolResultIds toolResults
              = Some <$> toolUseIds (Response.content response).
Proof.
  destruct (callClaudeAgent_trace fuel agentType userMessage previousContext s)
    as (exchanges & Hcalls & _ & Hanswered & _).
  exists exchanges. split; [exact Hcalls | exact Hanswered].
Qed.

(** C7. For an agent type other than ["researcher"] every call of the model
    made by the agent loop passes no tools, whatever the registry holds;
    the ["researcher"] agent passes the tools of the registry (when it has
    any). *)
Theorem only_researcher_gets_tools (fuel : nat) (agentType userMessage : string)
    (previousContext : option string) (s : Process) :
  exists exchanges,
    calls (Server.callClaudeAgent fuel agentType userMessage previousContext s).2
    = calls s ++ exchanges
    /\ exchanges <> []
    /\ (agentType <> "researcher" ->
        Forall (fun x => Request.tools x.1 = None) exchanges)
    /\ (agentType = "researcher" ->
        Forall (fun x =>
                  Request.tools x.1
                  = match mcpTools s with
                    | [] => None
                    | _ :: _ => Some (Server.getAnthropicTools s)
                    end)
               exchanges).
Proof.
  destruct (callClaudeAgent_trace fuel agentType userMessage previousContext s)
    as (exchanges & Hcalls & Hne & _ & Htools).
  exists exchanges. split; [exact Hcalls|]. split; [exact Hne|]. split.
  - intros Hother. destruct (String.eqb_spec agentType "researcher"); [contradiction|].
    exact Htools.
  - intros ->. simpl in Htools.
    unfold toolsParameter, Server.createRequest, Server.getAnthropicTools in *.
    simpl in Htools. destruct (mcpTools s); exact Htools.
Qed.

End Loop.

Section Results.
Context `{Platform}.

Lemma joinText_textsOf content :
  Server.joinText content = String.concat newline (textsOf content).
Proof.
  unfold Server.joinText, textsOf. f_equal.
  induction content as [|block rest IH]; [reflexivity|].
  destruct block; simpl; rewrite ?IH; reflexivity.
Qed.

Lemma append_empty (a b : string) : a +:+ b = "" -> a = "" /\ b = "".
Proof. destruct a; simpl; [auto | discriminate]. Qed.

Lemma concat_empty sep (l : list string) :
  String.concat sep l = "" -> forall x, x ∈ l -> x = "".
Proof.
  induction l as [|a [|b l] IH]; intros Hnil x Hx.
  - apply elem_of_nil in Hx. contradiction.
  - apply list_elem_of_singleton in Hx. subst. exact Hnil.
  - change (a +:+ sep +:+ String.concat sep (b :: l) = "") in Hnil.
    apply append_empty in Hnil as [-> Hnil].
    apply append_empty in Hnil as [_ Hnil].
    apply elem_of_cons in Hx as [->|Hx]; [reflexivity | apply IH; assumption].
Qed.

Lemma joinText_nonempty content text :
  Text text ∈ content -> text <> "" -> Server.joinText content <> "".
Proof.
  intros Hin Hne Hnil. rewrite joinText_textsOf in Hnil. apply Hne.
  apply (concat_empty _ _ Hnil). unfold textsOf.
  apply list_elem_of_omap. exists (Text text). auto.
Qed.

(** C5. When the model answers its first call with stop reason [tool_use]
    and its second call with another stop reason and at least one [text]
    block that is not empty, the agent loop terminates (one iteration is
    enough); its result is the texts of the [text] blocks of the final
    response joined by newlines, the other blocks being ignored, and is not
    empty. *)
Theorem loop_terminates_with_text (fuel : nat) (agentType userMessage : string)
    (previousContext : option string) (s : Process) (first second : Response.t) :
  let systemPrompt := Server.agentPrompts agentType in
  let messages := Server.initialMessages userMessage previousContext in
  let tools :=
    if String.eqb agentType "researcher" then Server.getAnthropicTools s else [] in
  let firstCall := messages_create (Server.createRequest systemPrompt messages tools) s in
  let dispatched := Server.forBlocks (Response.content first) [] firstCall.2 in
  let secondCall :=
    messages_create
      (Server.createRequest systemPrompt
         (messages ++ [Message.mk assistant (Blocks (Response.content first));
                       Message.mk user
                         (Blocks (toolResultsFor (Response.content first) firstCall.2))])
         tools)
      dispatched.2 in
  firstCall.1 = Returned first ->
  Response.stop_reason first = "tool_use" ->
  secondCall.1 = Returned second ->
  Response.stop_reason second <> "tool_use" ->
  (exists text, Text text ∈ Response.content second /\ text <> "") ->
  1 <= fuel ->
  Server.callClaudeAgent fuel agentType userMessage previousContext s
  = (Returned (String.concat newline (textsOf (Response.content second))), secondCall.2)
  /\ String.concat newline (textsOf (Response.content second)) <> "".
Proof.
  cbv zeta. intros Hfirst Hstop1 Hsecond Hstop2 (text & Hin & Hne) Hfuel.
  rewrite <- joinText_textsOf.
  split; [|eapply joinText_nonempty; eassumption].
  destruct fuel as [|fuel]; [lia|].
  unfold Server.callClaudeAgent, mbind, M_bind, getProcess. cbv zeta.
  remember (messages_create _ s) as firstCall eqn:Hcall1 in *.
  destruct firstCall as [o1 s1]. cbn [fst snd] in *. subst o1.
  cbn [Server.toolUseLoop]. rewrite Hstop1, String.eqb_refl.
  unfold mbind, M_bind. rewrite iteration_bind. cbv zeta.
  remember (messages_create _ (Server.forBlocks _ _ _).2) as secondCall eqn:Hcall2 in *.
  destruct secondCall as [o2 s2]. cbn [fst snd] in *. subst o2.
  unfold mret, M_ret. cbn [fst snd].
  destruct fuel; cbn [Server.toolUseLoop];
    destruct (String.eqb_spec (Response.stop_reason second) "tool_use");
    try contradiction; reflexivity.
Qed.

End Results.

Section ToolResults.
Context `{Platform}.

Lemma callMCPTool_thrown name input s error :
  toolFailure s name input error <->
  (Server.callMCPTool name input s).1 = Thrown error.
Proof.
  unfold toolFailure. rewrite callMCPTool_spec.
  destruct (List.find _ (mcpTools s)) as [tool|].
  - destruct (mcpClients s !! Tool._serverName tool) as [client|].
    + cbv zeta. simpl.
      destruct (client_callTool client _ input (world s)) as [[result|e] w]; simpl;
        split; intros Heq; try discriminate; congruence.
    + simpl. split; intros Heq; congruence.
  - simpl. split; intros Heq; congruence.
Qed.

(** Where the answer to a [tool_use] block sits among the results. *)
Lemma toolResultsFor_at pre id name input post s :
  exists toolResult,
    toolResultsFor (pre ++ ToolUse id name input :: post) s
      !! length (toolUseIds pre) = Some toolResult
    /\ ((exists result,
            (Server.callMCPTool name input (Server.forBlocks pre [] s).2).1
            = Returned result
            /\ toolResult
               = match Server.extractText result with
                 | inr textContent =>
                     ToolResult id (Server.contentOf textContent result) None
                 | inl error => errorResult id error
                 end)
        \/ (exists error,
               (Server.callMCPTool name input (Server.forBlocks pre [] s).2).1
               = Thrown error
               /\ toolResult = errorResult id error)).
Proof.
  destruct (dispatch_toolUse id name input (Server.forBlocks pre [] s).2)
    as (toolResult & s2 & Hd & _ & Hcases).
  exists toolResult. split; [|exact Hcases].
  unfold toolResultsFor at 1. rewrite forBlocks_app.
  cbn [Server.forBlocks]. unfold mbind, M_bind. rewrite Hd.
  rewrite forBlocks_toolResultsFor. cbn [fst app].
  rewrite <- app_assoc. apply list_lookup_middle.
  pose proof (toolResultsFor_ids pre s) as Hids.
  apply (f_equal length) in Hids.
  unfold toolResultIds in Hids. rewrite length_map, length_fmap in Hids.
  symmetry. exact Hids.
Qed.

(** C2. When the invocation of a [tool_use] block fails, for whichever
    reason (tool not found, provider client missing, or the underlying call
    throwing), the loop appends a [tool_result] with the block's id, the
    content ["Error: "] followed by the failure message and [is_error] true,
    and goes on to the next call of the model: the iteration raises only if
    that call of the model does. *)
Theorem tool_failure_is_reported (systemPrompt : option string)
    (tools : list AnthropicTool.t) (messages : list Message.t)
    (response : Response.t) (pre : list Block) (id name : string) (input : Json)
    (post : list Block) (error : JsError) (s : Process) :
  Response.content response = pre ++ ToolUse id name input :: post ->
  toolFailure (Server.forBlocks pre [] s).2 name input error ->
  let toolResults := toolResultsFor (Response.content response) s in
  let report := ToolResult id ("Error: " +:+ message error) (Some true) in
  let run := Server.iteration systemPrompt tools messages response s in
  toolResults !! length (toolUseIds pre) = Some report
  /\ isError report = true
  /\ (Server.forBlocks (Response.content response) [] s).1 = Returned toolResults
  /\ exists request settled,
       calls run.2 = calls s ++ [(request, settled)]
       /\ Request.messages request
          = messages ++ [Message.mk assistant (Blocks (Response.content response));
                         Message.mk user (Blocks toolResults)]
       /\ run.1 = match settled with
                  | Fulfilled next => Returned (Request.messages request, next)
                  | Rejected e => Thrown e
                  end.
Proof.
  intros Hcontent Hfail. cbv zeta.
  apply callMCPTool_thrown in Hfail.
  split; [|split; [reflexivity|split]].
  - rewrite Hcontent.
    destruct (toolResultsFor_at pre id name input post s)
      as (toolResult & Hat & [(result & Hr & _) | (error' & Hr & ->)]).
    + rewrite Hfail in Hr. discriminate.
    + rewrite Hfail in Hr. injection Hr as <-. exact Hat.
  - rewrite forBlocks_toolResultsFor. reflexivity.
  - rewrite iteration_spec. cbv zeta.
    pose proof (forBlocks_sameRegistry (Response.content response) s)
      as (_ & _ & _ & Hcalls & _).
    eexists _, _. cbn [fst snd calls]. rewrite Hcalls.
    split; [reflexivity|]. split.
    + simpl. rewrite <- app_assoc. reflexivity.
    + destruct (anthropic_messages_create _ _) as [[next|e] w]; reflexivity.
Qed.

End ToolResults.

Section Extraction.
Context `{Platform}.

Lemma append_nil_r (a : string) : a +:+ "" = a.
Proof.
  induction a as [|c a IH]; [reflexivity|].
  change (String c (a +:+ "") = String c a). f_equal. exact IH.
Qed.

Lemma append_assoc (a b c : string) : (a +:+ b) +:+ c = a +:+ b +:+ c.
Proof.
  induction a as [|x a IH]; [reflexivity|].
  change (String x ((a +:+ b) +:+ c) = String x (a +:+ b +:+ c)). f_equal. exact IH.
Qed.

Lemma concat_cons (x : string) (xs : list string) :
  String.concat "" (x :: xs) = x +:+ String.concat "" xs.
Proof.
  destruct xs as [|y ys]; [|reflexivity].
  cbn [String.concat]. symmetry. apply append_nil_r.
Qed.

Lemma forItems_objects items : forall textContent,
  forallb isObject items = true ->
  Server.forItems items textContent
  = inr (textContent +:+ String.concat "" (omap segmentText items)).
Proof.
  induction items as [|item rest IH]; intros textContent Hobjects.
  - simpl. rewrite append_nil_r. reflexivity.
  - simpl in Hobjects. apply andb_true_iff in Hobjects as [Hitem Hrest].
    destruct item as [| | | | |fields]; try discriminate Hitem.
    cbn [Server.forItems getProp omap list_omap segmentText].
    destruct (Server.isTextItem (lookupField "type" fields)).
    + rewrite IH by exact Hrest. rewrite concat_cons, append_assoc. reflexivity.
    + apply IH. exact Hrest.
Qed.

(** On a result of the SDK's shape, the extraction loop yields the
    concatenation of the text-typed segments and throws nothing. *)
Lemma extractText_shaped result :
  mcpShaped result = true ->
  Server.extractText result = inr (String.concat "" (textSegments result)).
Proof.
  intros Hshape. destruct result as [| | | | |fields]; try discriminate Hshape.
  unfold Server.extractText, textSegments, mcpShaped in *.
  cbn [getProp].
  destruct (lookupField "content" fields) as [[| | | |items|]|];
    try discriminate Hshape; [|reflexivity].
  cbn [truthy default iterate]. apply forItems_objects. exact Hshape.
Qed.

(** C6, as stated, fails when the text-typed segments are all empty: the
    demo tool [fetch__search] succeeds with one text segment holding the
    empty string, and the appended content is the JSON serialization of the
    response, not the (empty) concatenation of its text segments. *)
Lemma empty_text_is_serialized :
  let input := JObj [("url", JStr "https://example.org")] in
  (@Server.callMCPTool demoPlatform "fetch__search" input demoProcess).1
  = Returned emptyText
  /\ textSegments emptyText = [""]
  /\ @toolResultsFor demoPlatform [ToolUse "t3" "fetch__search" input] demoProcess
     = [ToolResult "t3" (JSON_stringify emptyText) None]
  /\ JSON_stringify emptyText <> String.concat "" (textSegments emptyText).
Proof.
  cbv zeta. split; [vm_compute; reflexivity|].
  split; [reflexivity|]. split; [vm_compute; reflexivity|].
  vm_compute. discriminate.
Qed.

(** C6 (amended). For every successful tool invocation, the response being
    an object whose [content], when present, is an array of objects, the
    appended [tool_result] carries no error flag, and its content is the
    concatenation of the text-typed segments of the response when that
    concatenation is not empty; when it is empty (no text-typed segment, or
    only empty ones) the content is the JSON serialization of the raw
    response. *)
Theorem tool_success_content (response : Response.t) (pre : list Block)
    (id name : string) (input : Json) (post : list Block) (result : Json)
    (s : Process) :
  Response.content response = pre ++ ToolUse id name input :: post ->
  (Server.callMCPTool name input (Server.forBlocks pre [] s).2).1 = Returned result ->
  mcpShaped result = true ->
  let text := String.concat "" (textSegments result) in
  let answer :=
    ToolResult id (if String.eqb text "" then JSON_stringify result else text) None in
  toolResultsFor (Response.content response) s !! length (toolUseIds pre) = Some answer
  /\ isError answer = false.
Proof.
  intros Hcontent Hcall Hshape. cbv zeta. split; [|reflexivity].
  rewrite Hcontent.
  destruct (toolResultsFor_at pre id name input post s)
    as (toolResult & Hat & [(result' & Hr & ->) | (error & Hr & _)]).
  - rewrite Hcall in Hr. injection Hr as <-.
    rewrite extractText_shaped in Hat by exact Hshape. exact Hat.
  - rewrite Hcall in Hr. discriminate.
Qed.

End Extraction.

(** * The server and the serverless variants *)

Section Variants.
Context `{Platform}.

Lemma prompts_agree agentType :
  agentType <> "researcher" ->
  ApiAgent.agentPrompts agentType = Server.agentPrompts agentType
  /\ Part000.agentPrompts agentType = Server.agentPrompts agentType.
Proof.
  intros Hother.
  unfold ApiAgent.agentPrompts, Part000.agentPrompts, Server.agentPrompts.
  destruct (String.eqb_spec agentType "researcher"); [contradiction|].
  split; reflexivity.
Qed.

Lemma initialMessages_seed userMessage previousContext :
  Server.initialMessages userMessage previousContext
  = seedMessages userMessage previousContext.
Proof.
  unfold Server.initialMessages, seedMessages, Server.hasContext.
  destruct previousContext as [context|]; [|reflexivity].
  destruct (String.eqb context ""); reflexivity.
Qed.

(** What a serverless variant does: one request, then the texts. *)
Lemma apiAgent_spec agentType userMessage previousContext s :
  let request :=
    Request.mk "claude-sonnet-4-20250514" 4096 (ApiAgent.agentPrompts agentType)
               (seedMessages userMessage previousContext) None in
  let r := anthropic_messages_create request (world s) in
  ApiAgent.callClaudeAgent agentType userMessage previousContext s
  = (match r.1 with
     | Fulfilled response => Returned (Server.joinText (Response.content response))
     | Rejected e => Thrown e
     end,
     mkProcess _ r.2 (process_env s) (mcpClients s) (mcpTools s) (console s)
               (calls s ++ [(request, r.1)]) (transports s)).
Proof.
  cbv zeta. unfold ApiAgent.callClaudeAgent, mbind, M_bind, messages_create, seedMessages.
  destruct previousContext as [context|]; [destruct (String.eqb context "")|];
    cbn [app fst snd];
    destruct (anthropic_messages_create _ (world s)) as [[response|e] w];
    reflexivity.
Qed.

Lemma part000_spec agentType userMessage previousContext s :
  agentType <> "researcher" ->
  let request :=
    Request.mk "claude-sonnet-4-20250514" 4096 (Part000.agentPrompts agentType)
               (seedMessages userMessage previousContext) None in
  let r := anthropic_messages_create request (world s) in
  Part000.callClaudeAgent agentType userMessage previousContext s
  = (match r.1 with
     | Fulfilled response => Returned (Server.joinText (Response.content response))
     | Rejected e => Thrown e
     end,
     mkProcess _ r.2 (process_env s) (mcpClients s) (mcpTools s) (console s)
               (calls s ++ [(request, r.1)]) (transports s)).
Proof.
  intros Hother. cbv zeta.
  unfold Part000.callClaudeAgent, messages_create, seedMessages.
  destruct (String.eqb_spec agentType "researcher"); [contradiction|].
  unfold mbind, M_bind, mret, M_ret.
  destruct previousContext as [context|]; [destruct (String.eqb context "")|];
    cbn [app fst snd];
    destruct (anthropic_messages_create _ (world s)) as [[response|e] w];
    reflexivity.
Qed.

(** C10, as stated, fails when the model answers with stop reason
    [tool_use]: for the agent type ["analyzer"], the same message and the
    same first model response, the serverless variant returns the text of
    that response after one call, while the server dispatches the tools,
    calls the model again and returns the text of the second response. *)
Lemma variants_differ_on_tool_use :
  let server :=
    @Server.callClaudeAgent demoPlatform 3 "analyzer" "findings" None demoProcess in
  let serverless :=
    @ApiAgent.callClaudeAgent demoPlatform "analyzer" "findings" None demoProcess in
  head (@calls demoPlatform server.2) = head (@calls demoPlatform serverless.2)
  /\ (exists request,
         head (@calls demoPlatform server.2) = Some (request, Fulfilled demoToolUse))
  /\ server.1 = Returned ("Finding one." +:+ newline +:+ "Finding two.")
  /\ serverless.1 = Returned "Let me search."
  /\ server.1 <> serverless.1
  /\ length (@calls demoPlatform server.2) = 2
  /\ length (@calls demoPlatform serverless.2) = 1.
Proof.
  cbv zeta.
  split; [vm_compute; reflexivity|].
  split; [eexists; vm_compute; reflexivity|].
  split; [vm_compute; reflexivity|].
  split; [vm_compute; reflexivity|].
  split; [vm_compute; discriminate|].
  split; vm_compute; reflexivity.
Qed.

(** C10 (amended). For the agent types ["analyzer"] and ["writer"], given
    the same user message, the same optional prior context and the same
    model response, whose stop reason is not [tool_use], the agent-call
    functions of the server and of the two serverless variants do the same:
    they send one request with the same system prompt, the same message
    sequence (the optional user(context) / fixed assistant acknowledgment
    pair, then user(message)) and no tools, and return the texts of the
    response joined by newlines. *)
Theorem variants_agree (fuel : nat) (agentType userMessage : string)
    (previousContext : option string) (s : Process) :
  agentType = "analyzer" \/ agentType = "writer" ->
  let messages :=
    match previousContext with
    | Some context =>
        if String.eqb context "" then [Message.mk user (Plain userMessage)]
        else [Message.mk user (Plain context);
              Message.mk assistant
                (Plain "I understand the context. Please provide your request.");
              Message.mk user (Plain userMessage)]
    | None => [Message.mk user (Plain userMessage)]
    end in
  let request :=
    Request.mk "claude-sonnet-4-20250514" 4096 (Server.agentPrompts agentType)
               messages None in
  let answer := anthropic_messages_create request (world s) in
  (forall response,
      answer.1 = Fulfilled response -> Response.stop_reason response <> "tool_use") ->
  Server.callClaudeAgent fuel agentType userMessage previousContext s
  = ApiAgent.callClaudeAgent agentType userMessage previousContext s
  /\ Part000.callClaudeAgent agentType userMessage previousContext s
     = ApiAgent.callClaudeAgent agentType userMessage previousContext s
  /\ calls (ApiAgent.callClaudeAgent agentType userMessage previousContext s).2
     = calls s ++ [(request, answer.1)]
  /\ (ApiAgent.callClaudeAgent agentType userMessage previousContext s).1
     = match answer.1 with
       | Fulfilled response =>
           Returned (String.concat newline (textsOf (Response.content response)))
       | Rejected e => Thrown e
       end.
Proof.
  intros Htype. cbv zeta.
  fold (seedMessages userMessage previousContext).
  assert (Hother : agentType <> "researcher")
    by (destruct Htype as [-> | ->]; discriminate).
  destruct (prompts_agree agentType Hother) as [Hapi Hpart].
  assert (Htools : (if String.eqb agentType "researcher"
                    then Server.getAnthropicTools s else []) = [])
    by (destruct (String.eqb_spec agentType "researcher"); [contradiction|reflexivity]).
  intros Hstop.
  rewrite apiAgent_spec, part000_spec by exact Hother. cbv zeta.
  rewrite callClaudeAgent_spec. cbv zeta.
  rewrite Hapi, Hpart, Htools, initialMessages_seed.
  change (Server.createRequest (Server.agentPrompts agentType)
            (seedMessages userMessage previousContext) [])
    with (Request.mk "claude-sonnet-4-20250514" 4096 (Server.agentPrompts agentType)
            (seedMessages userMessage previousContext) None) in *.
  destruct (anthropic_messages_create _ (world s)) as [[response|e] w];
    cbn [fst snd] in *.
  - specialize (Hstop response eq_refl).
    split; [|split; [reflexivity|split; [reflexivity|]]].
    + destruct fuel; cbn [Server.toolUseLoop];
        destruct (String.eqb_spec (Response.stop_reason response) "tool_use");
        try contradiction; reflexivity.
    + rewrite joinText_textsOf. reflexivity.
  - repeat split; reflexivity.
Qed.

End Variants.

(** * The demo run *)

(** The researcher on the demo platform: the model asks for [t1] to [t4],
    and the next request ends with one user turn answering them in that
    order. *)
Lemma tool_uses_answered_example :
  exists q1 q2 o2 toolResults,
    @calls demoPlatform
      (@Server.callClaudeAgent demoPlatform 3 "researcher" "quantum computing" None
         demoProcess).2
    = [(q1, Fulfilled demoToolUse); (q2, o2)]
    /\ Request.messages q2
       = Request.messages q1
         ++ [Message.mk assistant (Blocks (Response.content demoToolUse));
             Message.mk user (Blocks toolResults)]
    /\ toolResultIds toolResults = [Some "t1"; Some "t2"; Some "t3"; Some "t4"].
Proof.
  destruct (@tool_uses_answered_in_order demoPlatform 3 "researcher"
              "quantum computing" None demoProcess)
    as (exchanges & Hcalls & Hanswered).
  assert (Hrun : exists q1 q2 o2,
             @calls demoPlatform
               (@Server.callClaudeAgent demoPlatform 3 "researcher"
                  "quantum computing" None demoProcess).2
             = [(q1, Fulfilled demoToolUse); (q2, o2)])
    by (vm_compute; do 3 eexists; reflexivity).
  destruct Hrun as (q1 & q2 & o2 & Hrun).
  rewrite Hrun in Hcalls.
  change (@calls demoPlatform demoProcess) with (@nil (Request.t * Settled Response.t))
    in Hcalls.
  simpl in Hcalls. subst exchanges.
  destruct (Hanswered 0 q1 (Fulfilled demoToolUse) q2 o2 eq_refl eq_refl)
    as (response & toolResults & Hresponse & _ & Hmessages & Hids).
  injection Hresponse as <-.
  exists q1, q2, o2, toolResults.
  split; [exact Hrun|]. split; [exact Hmessages | exact Hids].
Defined.

(** [brave-search__news] is rejected by its provider and [wiki__lookup] is
    not registered: both are reported to the model. *)
Lemma tool_failure_example :
  @toolResultsFor demoPlatform (Response.content demoToolUse) demoProcess !! 1
  = Some (ToolResult "t2" "Error: rate limited" (Some true))
  /\ @toolResultsFor demoPlatform (Response.content demoToolUse) demoProcess !! 3
     = Some (ToolResult "t4" "Error: Tool not found: wiki__lookup" (Some true)).
Proof.
  split.
  - apply (@tool_failure_is_reported demoPlatform None [] [] demoToolUse
             (take 2 (Response.content demoToolUse)) "t2" "brave-search__news"
             (JObj [("query", JStr "quantum computing")])
             (drop 3 (Response.content demoToolUse))
             (mkError "rate limited") demoProcess).
    + reflexivity.
    + vm_compute. reflexivity.
  - apply (@tool_failure_is_reported demoPlatform None [] [] demoToolUse
             (take 4 (Response.content demoToolUse)) "t4" "wiki__lookup" JNull []
             (mkError "Tool not found: wiki__lookup") demoProcess).
    + reflexivity.
    + vm_compute. reflexivity.
Defined.

(** The demo run ends after one iteration with the two texts of the final
    response. *)
Lemma loop_terminates_example :
  (@Server.callClaudeAgent demoPlatform 1 "researcher" "quantum computing" None
     demoProcess).1
  = Returned ("Finding one." +:+ newline +:+ "Finding two.").
Proof.
  destruct (@loop_terminates_with_text demoPlatform 1 "researcher"
              "quantum computing" None demoProcess demoToolUse demoAnswer)
    as [Hrun _].
  - vm_compute. reflexivity.
  - reflexivity.
  - vm_compute. reflexivity.
  - discriminate.
  - exists "Finding one.". split; [|discriminate].
    apply elem_of_cons. left. reflexivity.
  - apply le_n.
  - rewrite Hrun. reflexivity.
Defined.

(** [brave-search__search] succeeds with two text segments around an
    image: the content is their concatenation. *)
Lemma tool_success_example :
  @toolResultsFor demoPlatform (Response.content demoToolUse) demoProcess !! 0
  = Some (ToolResult "t1" "Result A. Result B." None).
Proof.
  apply (@tool_success_content demoPlatform demoToolUse
           (take 1 (Response.content demoToolUse)) "t1" "brave-search__search"
           (JObj [("query", JStr "quantum computing")])
           (drop 2 (Response.content demoToolUse))
           (JObj [("content",
                   JArr [JObj [("type", JStr "text"); ("text", JStr "Result A. ")];
                         JObj [("type", JStr "image"); ("data", JStr "aGk=")];
                         JObj [("type", JStr "text"); ("text", JStr "Result B.")]])])
           demoProcess).
  - reflexivity.
  - vm_compute. reflexivity.
  - reflexivity.
Defined.

(** The writer on the demo platform passes no tools, although three are
    registered. *)
Lemma writer_gets_no_tools :
  length (@mcpTools demoPlatform demoProcess) = 3
  /\ Forall (fun x => Request.tools x.1 = None)
            (@calls demoPlatform
               (@Server.callClaudeAgent demoPlatform 3 "writer" "the analysis"
                  (Some "the research") demoProcess).2).
Proof.
  split; [vm_compute; reflexivity|].
  destruct (@only_researcher_gets_tools demoPlatform 3 "writer" "the analysis"
              (Some "the research") demoProcess)
    as (exchanges & Hcalls & _ & Hnone & _).
  rewrite Hcalls.
  change (@calls demoPlatform demoProcess) with (@nil (Request.t * Settled Response.t)).
  apply Hnone. discriminate.
Defined.

(** With a model that answers at once, the three variants of the writer
    return the same. *)
Lemma variants_agree_example :
  let s := @start plainPlatform 0 ∅ in
  @Server.callClaudeAgent plainPlatform 0 "writer" "the analysis" (Some "the research") s
  = @ApiAgent.callClaudeAgent plainPlatform "writer" "the analysis" (Some "the research") s
  /\ @Part000.callClaudeAgent plainPlatform "writer" "the analysis"
       (Some "the research") s
     = @ApiAgent.callClaudeAgent plainPlatform "writer" "the analysis"
         (Some "the research") s.
Proof.
  cbv zeta.
  destruct (@variants_agree plainPlatform 0 "writer" "the analysis"
              (Some "the research") (@start plainPlatform 0 ∅))
    as (Hserver & Hpart & _).
  - right. reflexivity.
  - intros response Hresponse. vm_compute in Hresponse.
    injection Hresponse as <-. discriminate.
  - split; [exact Hserver | exact Hpart].
Defined.

(** * More about the tool-use loop *)

Section LoopOutcome.
Context `{Platform}.

Lemma registryKept_refl s : registryKept s s.
Proof. repeat split. Qed.

Lemma registryKept_trans s1 s2 s3 :
  registryKept s1 s2 -> registryKept s2 s3 -> registryKept s1 s3.
Proof. intros (? & ? & ? & ?) (? & ? & ? & ?). repeat split; congruence. Qed.

Lemma sameRegistry_kept s s' : sameRegistry s s' -> registryKept s s'.
Proof. intros (? & ? & ? & ? & ?). repeat split; assumption. Qed.

Lemma iteration_kept systemPrompt tools messages response s :
  registryKept s (Server.iteration systemPrompt tools messages response s).2.
Proof.
  rewrite iteration_spec. cbv zeta.
  pose proof (forBlocks_sameRegistry (Response.content response) s)
    as (? & ? & ? & ? & ?).
  repeat split; assumption.
Qed.

Lemma toolUseLoop_outcome fuel : forall systemPrompt tools messages response s q,
  exists exchanges request final,
    calls (Server.toolUseLoop fuel systemPrompt tools messages response s).2
    = calls s ++ exchanges
    /\ last ((q, Fulfilled response) :: exchanges) = Some (request, final)
    /\ endsWith (Server.toolUseLoop fuel systemPrompt tools messages response s).1 final
    /\ registryKept s (Server.toolUseLoop fuel systemPrompt tools messages response s).2.
Proof.
  induction fuel as [|fuel IH]; intros systemPrompt tools messages response s q.
  - exists [], q, (Fulfilled response). simpl.
    destruct (String.eqb_spec (Response.stop_reason response) "tool_use") as [Hs|Hs];
      simpl; rewrite app_nil_r.
    + repeat split; eauto.
    + split; [reflexivity|]. split; [reflexivity|].
      split; [|apply registryKept_refl].
      exists response. rewrite <- joinText_textsOf. auto.
  - cbn [Server.toolUseLoop].
    destruct (String.eqb_spec (Response.stop_reason response) "tool_use") as [Hs|Hs].
    2: { exists [], q, (Fulfilled response). simpl. rewrite app_nil_r.
         split; [reflexivity|]. split; [reflexivity|].
         split; [|apply registryKept_refl].
         exists response. rewrite <- joinText_textsOf. auto. }
    unfold mbind, M_bind.
    pose proof (iteration_kept systemPrompt tools messages response s) as Hkept.
    assert (Hcalls : exists request settled,
               calls (Server.iteration systemPrompt tools messages response s).2
               = calls s ++ [(request, settled)]
               /\ (Server.iteration systemPrompt tools messages response s).1
                  = match settled with
                    | Fulfilled next => Returned (Request.messages request, next)
                    | Rejected e => Thrown e
                    end).
    { rewrite iteration_spec. cbv zeta.
      pose proof (forBlocks_sameRegistry (Response.content response) s)
        as (_ & _ & _ & Hc & _).
      eexists _, _. cbn [fst snd calls]. rewrite Hc. split; [reflexivity|].
      destruct (anthropic_messages_create _ _) as [[next|e] w]; reflexivity. }
    destruct Hcalls as (request & settled & Hcalls & Hout).
    destruct (Server.iteration systemPrompt tools messages response s) as [o s1].
    cbn [fst snd] in *. subst o. destruct settled as [next|e].
    + destruct (IH systemPrompt tools (Request.messages request) next s1 request)
        as (exchanges & request' & final & Hcalls' & Hlast & Hends & Hkept').
      cbn [fst snd].
      exists ((request, Fulfilled next) :: exchanges), request', final.
      split; [rewrite Hcalls', Hcalls, <- app_assoc; reflexivity|].
      split; [exact Hlast|]. split; [exact Hends|].
      eapply registryKept_trans; eassumption.
    + exists [(request, Rejected e)], request, (Rejected e).
      split; [exact Hcalls|]. split; [reflexivity|]. split; [reflexivity | exact Hkept].
Qed.

Lemma callClaudeAgent_ends (fuel : nat) (agentType userMessage : string)
    (previousContext : option string) (s : Process) :
  exists exchanges request final,
    calls (Server.callClaudeAgent fuel agentType userMessage previousContext s).2
    = calls s ++ exchanges
    /\ last exchanges = Some (request, final)
    /\ endsWith (Server.callClaudeAgent fuel agentType userMessage previousContext s).1
                final.
Proof.
  cbv zeta. rewrite callClaudeAgent_spec. cbv zeta.
  set (request := Server.createRequest _ _ _).
  destruct (anthropic_messages_create request (world s)) as [[response|e] w];
    cbn [fst snd].
  - edestruct (toolUseLoop_outcome fuel (Server.agentPrompts agentType)
                 (if String.eqb agentType "researcher"
                  then Server.getAnthropicTools s else [])
                 (Server.initialMessages userMessage previousContext) response
                 (mkProcess _ w (process_env s) (mcpClients s) (mcpTools s) (console s)
                            (calls s ++ [(request, Fulfilled response)]) (transports s))
                 request)
      as (exchanges & request' & final & Hcalls & Hlast & Hends & _).
    exists ((request, Fulfilled response) :: exchanges), request', final.
    rewrite Hcalls. cbn [calls]. rewrite <- app_assoc.
    split; [reflexivity|]. split; [exact Hlast | exact Hends].
  - exists [(request, Rejected e)], request, (Rejected e). repeat split.
Qed.

(** X1. However many iterations a run of [callClaudeAgent] takes, its result is
    the joined text of the last response of the model, whose stop reason is
    not [tool_use]; it throws exactly when a call of the model was rejected,
    with that error and without calling the model again; failures of tools
    never end a run. *)
Theorem run_ends_with_last_exchange (fuel : nat) (agentType userMessage : string)
    (previousContext : option string) (s : Process) :
  let run := Server.callClaudeAgent fuel agentType userMessage previousContext s in
  exists exchanges request final,
    calls run.2 = calls s ++ exchanges
    /\ last exchanges = Some (request, final)
    /\ match run.1 with
       | Returned text =>
           exists response,
             final = Fulfilled response
             /\ Response.stop_reason response <> "tool_use"
             /\ text = String.concat newline (textsOf (Response.content response))
       | Thrown e => final = Rejected e
       | OutOfFuel =>
           exists response,
             final = Fulfilled response /\ Response.stop_reason response = "tool_use"
       end.
Proof.
  cbv zeta.
  destruct (callClaudeAgent_ends fuel agentType userMessage previousContext s)
    as (exchanges & request & final & Hcalls & Hlast & Hends).
  exists exchanges, request, final.
  split; [exact Hcalls|]. split; [exact Hlast|].
  destruct (Server.callClaudeAgent fuel agentType userMessage previousContext s).1;
    exact Hends.
Qed.

(** X2. A run of an agent reads the registry and the environment and changes
    neither: [mcpTools], [mcpClients] and [process.env] are the same
    afterwards, and no transport is created. *)
Theorem run_keeps_registry (fuel : nat) (agentType userMessage : string)
    (previousContext : option string) (s : Process) :
  let s' := (Server.callClaudeAgent fuel agentType userMessage previousContext s).2 in
  mcpTools s' = mcpTools s /\ mcpClients s' = mcpClients s
  /\ process_env s' = process_env s /\ transports s' = transports s.
Proof.
  cbv zeta. rewrite callClaudeAgent_spec. cbv zeta.
  set (request := Server.createRequest _ _ _).
  destruct (anthropic_messages_create request (world s)) as [[response|e] w];
    cbn [fst snd]; [|repeat split].
  edestruct (toolUseLoop_outcome fuel (Server.agentPrompts agentType)
               (if String.eqb agentType "researcher"
                then Server.getAnthropicTools s else [])
               (Server.initialMessages userMessage previousContext) response
               (mkProcess _ w (process_env s) (mcpClients s) (mcpTools s) (console s)
                          (calls s ++ [(request, Fulfilled response)]) (transports s))
               request)
    as (_ & _ & _ & _ & _ & _ & (Henv & Hclients & Htools & Htransports)).
  repeat split; assumption.
Qed.

Lemma toolUseLoop_insists fuel : forall systemPrompt tools messages response s,
  (forall request w,
      exists next, (anthropic_messages_create request w).1 = Fulfilled next
                   /\ Response.stop_reason next = "tool_use") ->
  Response.stop_reason response = "tool_use" ->
  (Server.toolUseLoop fuel systemPrompt tools messages response s).1 = OutOfFuel
  /\ length (calls (Server.toolUseLoop fuel systemPrompt tools messages response s).2)
     = length (calls s) + fuel.
Proof.
  induction fuel as [|fuel IH]; intros systemPrompt tools messages response s Hmodel Hs.
  - simpl. rewrite Hs, String.eqb_refl. simpl. split; [reflexivity | lia].
  - cbn [Server.toolUseLoop]. rewrite Hs, String.eqb_refl.
    unfold mbind, M_bind. rewrite iteration_spec. cbv zeta.
    pose proof (forBlocks_sameRegistry (Response.content response) s)
      as (_ & _ & _ & Hc & _).
    set (request := Server.createRequest _ _ _).
    set (s1 := (Server.forBlocks (Response.content response) [] s).2) in *.
    destruct (Hmodel request (world s1)) as (next & Hnext & Hstop).
    destruct (anthropic_messages_create request (world s1)) as [settled w].
    cbn [fst snd] in *. subst settled.
    edestruct (IH systemPrompt tools
                 ((messages ++ [Message.mk assistant (Blocks (Response.content response))])
                  ++ [Message.mk user
                        (Blocks (toolResultsFor (Response.content response) s))])
                 next
                 (mkProcess _ w (process_env s1) (mcpClients s1) (mcpTools s1)
                            (console s1) (calls s1 ++ [(request, Fulfilled next)])
                            (transports s1))
                 Hmodel Hstop) as [Hout Hlen].
    split; [exact Hout|]. cbn [fst snd]. rewrite Hlen. cbn [calls].
    rewrite length_app, Hc. simpl. lia.
Qed.

(** X3. The loop has no bound of its own: with a model that asks for tools on
    every call, a run given [fuel] iterations has called the model
    [fuel + 1] times and is still not finished. *)
Theorem loop_is_unbounded (fuel : nat) (agentType userMessage : string)
    (previousContext : option string) (s : Process) :
  (forall request w,
      exists next, (anthropic_messages_create request w).1 = Fulfilled next
                   /\ Response.stop_reason next = "tool_use") ->
  let run := Server.callClaudeAgent fuel agentType userMessage previousContext s in
  run.1 = OutOfFuel /\ length (calls run.2) = length (calls s) + fuel + 1.
Proof.
  intros Hmodel. cbv zeta. rewrite callClaudeAgent_spec. cbv zeta.
  set (request := Server.createRequest _ _ _).
  destruct (Hmodel request (world s)) as (response & Hresponse & Hstop).
  destruct (anthropic_messages_create request (world s)) as [settled w].
  cbn [fst snd] in *. subst settled.
  edestruct (toolUseLoop_insists fuel (Server.agentPrompts agentType)
               (if String.eqb agentType "researcher"
                then Server.getAnthropicTools s else [])
               (Server.initialMessages userMessage previousContext) response
               (mkProcess _ w (process_env s) (mcpClients s) (mcpTools s) (console s)
                          (calls s ++ [(request, Fulfilled response)]) (transports s))
               Hmodel Hstop) as [Hout Hlen].
  split; [exact Hout|]. rewrite Hlen. cbn [calls]. rewrite length_app. simpl. lia.
Qed.

End LoopOutcome.

(** With the model of [insistentPlatform], seven iterations make eight
    calls and leave the run unfinished. *)
Lemma loop_is_unbounded_example :
  let run :=
    @Server.callClaudeAgent insistentPlatform 7 "researcher" "quantum computing" None
      (@start insistentPlatform tt ∅) in
  run.1 = OutOfFuel /\ length (@calls insistentPlatform run.2) = 8.
Proof.
  cbv zeta.
  apply (@loop_is_unbounded insistentPlatform 7 "researcher" "quantum computing" None
           (@start insistentPlatform tt ∅)).
  intros request w. eexists. split; reflexivity.
Defined.

(** * More about the registry *)

Section Routing.
Context `{Platform}.

Lemma find_first (tools pre post : list Tool.t) (tool : Tool.t) :
  tools = pre ++ tool :: post ->
  (forall t, t ∈ pre -> Tool.name t <> Tool.name tool) ->
  List.find (fun t => String.eqb (Tool.name t) (Tool.name tool)) tools = Some tool.
Proof.
  intros -> Hpre. induction pre as [|t pre IH]; simpl.
  - rewrite String.eqb_refl. reflexivity.
  - destruct (String.eqb_spec (Tool.name t) (Tool.name tool)) as [Heq|_].
    + exfalso. apply (Hpre t); [apply elem_of_cons; auto | exact Heq].
    + apply IH. intros t' Ht'. apply Hpre. apply elem_of_cons. auto.
Qed.

(** X4. When two registered tools have the same qualified name, a call by that
    name always reaches the one registered first, with its provider's
    client and its local name; whatever is registered after it under the
    same name is never called. *)
Theorem first_registered_tool_is_called (s : Process) (pre post : list Tool.t)
    (tool : Tool.t) (client : Client) (args : Json) :
  mcpTools s = pre ++ tool :: post ->
  (forall t, t ∈ pre -> Tool.name t <> Tool.name tool) ->
  mcpClients s !! Tool._serverName tool = Some client ->
  let r := client_callTool client (Tool._originalName tool) args (world s) in
  Server.callMCPTool (Tool.name tool) args s = (settle r.1, setWorld r.2 s).
Proof.
  intros Htools Hpre Hclient. cbv zeta. rewrite callMCPTool_spec.
  rewrite (find_first _ pre post tool Htools Hpre), Hclient. reflexivity.
Qed.

(** X5. Every tool that [initializeMCP] registers, and so every tool offered to
    the researcher, resolves: a call by its name finds a tool and the client
    of that tool's provider, and is forwarded to it. [callMCPTool] then
    throws neither "Tool not found" nor "MCP client not found"; it fails
    only as the provider's call fails. *)
Theorem offered_tools_resolve (entries : list (string * ServerConfig.t))
    (s : Process) (offered : AnthropicTool.t) (args : Json) :
  mcpTools s = [] ->
  let s' := (Server.initializeMCP entries s).2 in
  offered ∈ Server.getAnthropicTools s' ->
  exists target client,
    List.find (fun t => String.eqb (Tool.name t) (AnthropicTool.name offered))
              (mcpTools s') = Some target
    /\ mcpClients s' !! Tool._serverName target = Some client
    /\ Server.callMCPTool (AnthropicTool.name offered) args s'
       = (settle (client_callTool client (Tool._originalName target) args (world s')).1,
          setWorld (client_callTool client (Tool._originalName target) args (world s')).2
                   s').
Proof.
  intros Hempty. cbv zeta. intros Hoffered.
  assert (Hcover : clientsCover (Server.initializeMCP entries s).2).
  { rewrite initializeMCP_spec. cbv zeta.
    pose proof (registerServers_clientsCover entries s) as Hc.
    intros tool Htool. cbn [mcpTools mcpClients snd] in *. apply Hc; [|exact Htool].
    intros t Ht. rewrite Hempty in Ht. apply elem_of_nil in Ht. contradiction. }
  unfold Server.getAnthropicTools in Hoffered.
  apply list_elem_of_fmap in Hoffered as (tool & -> & Htool). cbn [AnthropicTool.name].
  destruct (find_registered tool _ Htool) as [target Hfind].
  assert (Htarget : target ∈ mcpTools (Server.initializeMCP entries s).2).
  { apply list_elem_of_In. eapply List.find_some. exact Hfind. }
  destruct (Hcover target Htarget) as [client Hclient].
  exists target, client. split; [exact Hfind|]. split; [exact Hclient|].
  rewrite callMCPTool_spec, Hfind, Hclient. reflexivity.
Qed.

Lemma find_unique (tools : list Tool.t) (tool : Tool.t) :
  NoDup (map Tool.name tools) -> tool ∈ tools ->
  List.find (fun t => String.eqb (Tool.name t) (Tool.name tool)) tools = Some tool.
Proof.
  intros Hnodup Hin. apply list_elem_of_split in Hin as (pre & post & ->).
  eapply find_first; [reflexivity|].
  intros t Ht Heq. rewrite map_app in Hnodup. apply NoDup_app in Hnodup as (_ & Hdisj & _).
  apply (Hdisj (Tool.name t)).
  - apply list_elem_of_fmap. eauto.
  - simpl. rewrite Heq. apply elem_of_cons. auto.
Qed.

(** X6. Registering and calling compose: once [initializeMCP] has run on
    providers with separable, distinct names that report each local name
    once, a call by the qualified name of a tool goes to the client
    obtained for the provider that reported the tool, under the tool's
    local name. *)
Theorem tool_call_reaches_its_provider
    (before : list (string * ServerConfig.t)) (serverName : string)
    (serverConfig : ServerConfig.t) (after : list (string * ServerConfig.t))
    (s : Process) (client : Client) (tools : list ListedTool.t)
    (tool : ListedTool.t) (args : Json) :
  let entries := before ++ (serverName, serverConfig) :: after in
  let s1 := (Server.registerServers before s).2 in
  let s' := (Server.initializeMCP entries s).2 in
  let connected :=
    client_connect (Server.transportOptions (process_env s1) serverConfig) (world s1) in
  mcpTools s = [] ->
  NoDup (map fst entries) ->
  (forall name, name ∈ map fst entries -> separable name = true) ->
  (forall c w listed,
      (client_listTools c w).1 = Fulfilled listed ->
      NoDup (map ListedTool.name listed)) ->
  connected.1 = Fulfilled client ->
  (client_listTools client connected.2).1 = Fulfilled tools ->
  tool ∈ tools ->
  Server.callMCPTool (Server.qualifiedName serverName (ListedTool.name tool)) args s'
  = (settle (client_callTool client (ListedTool.name tool) args (world s')).1,
     setWorld (client_callTool client (ListedTool.name tool) args (world s')).2 s').
Proof.
  cbv zeta. intros Hempty Hnodup Hseps Hlisting Hconnect Hlist Htool.
  set (s1 := (Server.registerServers before s).2) in *.
  set (s2 := (Server.registerServer serverName serverConfig s1).2).
  assert (Hfinal : (Server.registerServers
                      (before ++ (serverName, serverConfig) :: after) s).2
                   = (Server.registerServers after s2).2).
  { rewrite registerServers_app, registerServers_cons. reflexivity. }
  assert (Hs2 : mcpTools s2 = mcpTools s1 ++ map (Server.namespaced serverName) tools
                /\ mcpClients s2 !! serverName = Some client).
  { unfold s2. rewrite registerServer_spec. cbv zeta.
    destruct (client_connect _ (world s1)) as [[client'|e] w]; simpl in Hconnect;
      [|discriminate].
    injection Hconnect as ->. simpl in Hlist.
    destruct (client_listTools client w) as [[tools'|e] w']; simpl in Hlist;
      [|discriminate].
    injection Hlist as ->. cbn [mcpTools mcpClients snd].
    split; [reflexivity | apply lookup_insert_eq]. }
  destruct Hs2 as [Htools2 Hclient2].
  assert (Hnotafter : serverName ∉ map fst after).
  { rewrite map_app in Hnodup. apply NoDup_app in Hnodup as (_ & _ & Hnd).
    simpl in Hnd. apply NoDup_cons in Hnd as [Hnd _]. exact Hnd. }
  destruct (registerServers_frame after s2) as (later & _ & _ & Hlater & _).
  destruct (registerServers_qualifiedBy
              (before ++ (serverName, serverConfig) :: after) [] s) as [Hdistinct _];
    auto.
  { rewrite Hempty. split; [constructor|]. intros t Ht.
    apply elem_of_nil in Ht. contradiction. }
  rewrite Hfinal in Hdistinct.
  assert (Hin : Server.namespaced serverName tool
                ∈ mcpTools (Server.registerServers after s2).2).
  { rewrite Hlater, Htools2, !elem_of_app. left. right.
    apply list_elem_of_fmap. eauto. }
  pose proof (find_unique _ _ Hdistinct Hin) as Hfind.
  rewrite callMCPTool_spec, initializeMCP_spec. cbv zeta.
  cbn [mcpTools mcpClients world snd]. rewrite Hfinal.
  change (Tool.name (Server.namespaced serverName tool))
    with (Server.qualifiedName serverName (ListedTool.name tool)) in Hfind.
  rewrite Hfind. cbn [Tool._serverName Tool._originalName Server.namespaced].
  rewrite registerServers_other_client by exact Hnotafter.
  rewrite Hclient2. reflexivity.
Qed.

(** X7. The transport environment has exactly the keys of the process
    environment and of the configured [env]: resolving references neither
    drops nor adds a variable. *)
Theorem transport_env_keys (penv : gmap string string) (serverConfig : ServerConfig.t) :
  dom (TransportOptions.env (Server.transportOptions penv serverConfig))
  = dom (default ∅ (ServerConfig.env serverConfig)) ∪ dom penv.
Proof.
  apply set_eq. intros key.
  rewrite elem_of_union, !elem_of_dom, transport_env_lookup.
  destruct (default ∅ (ServerConfig.env serverConfig) !! key) as [v|];
    destruct (penv !! key) as [v'|]; simpl; split; intros Hk.
  all: try solve [eauto | left; eauto | right; eauto].
  all: try solve [destruct Hk as [[? Hk]|[? Hk]]; discriminate].
  all: destruct Hk as [? Hk]; discriminate.
Qed.

End Routing.

(** On [echoColliding] both providers register [a__b__c]; the call goes to
    the first, [a], under its local name [b__c]. *)
Lemma first_registered_example :
  map Tool.name (@mcpTools echoColliding echoProcess) = ["a__b__c"; "a__b__c"]
  /\ (@Server.callMCPTool echoColliding "a__b__c" JNull echoProcess).1
     = Returned (JObj [("client", JStr "first"); ("tool", JStr "b__c")]).
Proof.
  split; [vm_compute; reflexivity|].
  assert (Hcall := @first_registered_tool_is_called echoColliding echoProcess []
                     [Tool.mk "a__b__c" None noTools "a__b" "c"]
                     (Tool.mk "a__b__c" None noTools "a" "b__c") "first" JNull).
  cbv zeta in Hcall. cbn [Tool.name Tool._serverName Tool._originalName] in Hcall.
  rewrite Hcall.
  - vm_compute. reflexivity.
  - vm_compute. reflexivity.
  - intros t Ht. apply elem_of_nil in Ht. contradiction.
  - vm_compute. reflexivity.
Defined.

(** [fetch__search], offered by the demo registry, resolves to a
    registered tool and the client of its provider. *)
Lemma offered_tools_resolve_example :
  exists target client,
    List.find (fun t => String.eqb (Tool.name t) "fetch__search")
              (@mcpTools demoPlatform demoProcess) = Some target
    /\ @mcpClients demoPlatform demoProcess !! Tool._serverName target = Some client
    /\ @Server.callMCPTool demoPlatform "fetch__search" JNull demoProcess
       = (settle (@client_callTool demoPlatform client (Tool._originalName target)
                    JNull (@world demoPlatform demoProcess)).1,
          setWorld (@client_callTool demoPlatform client (Tool._originalName target)
                      JNull (@world demoPlatform demoProcess)).2 demoProcess).
Proof.
  unfold demoProcess.
  apply (@offered_tools_resolve demoPlatform demoEntries
           (@start demoPlatform 0 {[ "BRAVE_API_KEY" := "key" ]})
           (AnthropicTool.mk "fetch__search" (Some "Search a page") noTools) JNull).
  - reflexivity.
  - apply list_elem_of_In. vm_compute. right. right. left. reflexivity.
Defined.

(** In the demo, [fetch__search] is sent to the client of [fetch] as
    [search], although [brave-search] reports a [search] too. *)
Lemma tool_call_reaches_its_provider_example :
  (@Server.callMCPTool demoPlatform "fetch__search" JNull demoProcess).1
  = Returned emptyText.
Proof.
  pose proof (@tool_call_reaches_its_provider demoPlatform
                (take 2 demoEntries) "fetch" (ServerConfig.mk "fetch-mcp" None None) []
                (@start demoPlatform 0 {[ "BRAVE_API_KEY" := "key" ]})
                "fetch-mcp"
                [ListedTool.mk "search" (Some "Search a page") noTools]
                (ListedTool.mk "search" (Some "Search a page") noTools) JNull)
    as Hcall.
  cbv zeta in Hcall. cbn [ListedTool.name] in Hcall.
  assert (Hrouted :
            @Server.callMCPTool demoPlatform
              (Server.qualifiedName "fetch" "search") JNull
              (@Server.initializeMCP demoPlatform
                 (take 2 demoEntries ++ [("fetch", ServerConfig.mk "fetch-mcp" None None)])
                 (@start demoPlatform 0 {[ "BRAVE_API_KEY" := "key" ]})).2
            = (Returned emptyText,
               (@Server.initializeMCP demoPlatform
                  (take 2 demoEntries ++ [("fetch", ServerConfig.mk "fetch-mcp" None None)])
                  (@start demoPlatform 0 {[ "BRAVE_API_KEY" := "key" ]})).2)).
  { rewrite Hcall.
    - vm_compute. reflexivity.
    - reflexivity.
    - apply (bool_decide_unpack _). vm_compute. exact I.
    - intros name Hin. simpl in Hin. rewrite !elem_of_cons in Hin.
      destruct Hin as [-> | [-> | [-> | Hin]]]; try reflexivity.
      apply elem_of_nil in Hin. contradiction.
    - intros c w listed. simpl. unfold demoListing.
      destruct (String.eqb c "brave-mcp"); intros [= <-];
        apply (bool_decide_unpack _); vm_compute; exact I.
    - reflexivity.
    - reflexivity.
    - apply list_elem_of_singleton. reflexivity. }
  unfold demoProcess.
  replace demoEntries
    with (take 2 demoEntries ++ [("fetch", ServerConfig.mk "fetch-mcp" None None)])
    by reflexivity.
  change "fetch__search" with (Server.qualifiedName "fetch" "search").
  rewrite Hrouted. reflexivity.
Defined.

(** * What the model is told about a tool call *)

Section ResultContent.
Context `{Platform}.

Lemma pretty_N_go_nonempty (x : N) : forall s, s <> "" -> pretty_N_go x s <> "".
Proof.
  induction (N.lt_wf_0 x) as [x _ IH]. intros s Hs.
  destruct (decide (x = 0)%N) as [->|Hx].
  - rewrite pretty_N_go_0. exact Hs.
  - rewrite pretty_N_go_step by lia. apply IH; [|discriminate].
    apply N.div_lt; lia.
Qed.

Lemma pretty_positive_nonempty (p : positive) : pretty p <> "".
Proof.
  unfold pretty, pretty_positive, pretty, pretty_N.
  destruct (decide (N.pos p = 0)%N) as [Hp|_]; [discriminate Hp|].
  rewrite pretty_N_go_step by lia. apply pretty_N_go_nonempty. discriminate.
Qed.

Lemma pretty_Z_nonempty (z : Z) : pretty z <> "".
Proof.
  unfold pretty, pretty_Z. destruct z as [|p|p].
  - discriminate.
  - apply pretty_positive_nonempty.
  - discriminate.
Qed.

Lemma JSON_stringify_nonempty (j : Json) : JSON_stringify j <> "".
Proof.
  destruct j as [|[]|z|s|items|fields]; cbn [JSON_stringify]; try discriminate.
  apply pretty_Z_nonempty.
Qed.

Lemma contentOf_nonempty textContent result :
  Server.contentOf textContent result <> "".
Proof.
  unfold Server.contentOf.
  destruct (String.eqb_spec textContent "") as [_|Hne];
    [apply JSON_stringify_nonempty | exact Hne].
Qed.

Lemma toolResultsFor_cons block rest s :
  toolResultsFor (block :: rest) s
  = toolResultsFor [block] s ++ toolResultsFor rest (Server.forBlocks [block] [] s).2.
Proof.
  unfold toolResultsFor at 1.
  change (block :: rest) with ([block] ++ rest).
  rewrite forBlocks_app, forBlocks_toolResultsFor. reflexivity.
Qed.

Lemma toolResultsFor_one block s :
  match block with
  | ToolUse id name input =>
      exists content flag, toolResultsFor [block] s = [ToolResult id content flag]
                           /\ content <> ""
  | _ => toolResultsFor [block] s = []
  end.
Proof.
  destruct block as [text | id name input | id content e | raw]; try reflexivity.
  destruct (dispatch_toolUse id name input s) as (toolResult & s' & Hd & _ & Hcases).
  assert (Hone : toolResultsFor [ToolUse id name input] s = [toolResult]).
  { unfold toolResultsFor. cbn [Server.forBlocks]. unfold mbind, M_bind.
    rewrite Hd. reflexivity. }
  rewrite Hone.
  destruct Hcases as [(result & _ & ->) | (error & _ & ->)].
  - destruct (Server.extractText result) as [error|textContent].
    + eexists _, _. split; [reflexivity | discriminate].
    + eexists _, _. split; [reflexivity | apply contentOf_nonempty].
  - eexists _, _. split; [reflexivity | discriminate].
Qed.

Lemma toolResultsFor_nonempty (content : list Block) : forall s,
  Forall (fun block =>
            match block with
            | ToolResult _ text _ => text <> ""
            | _ => False
            end)
         (toolResultsFor content s).
Proof.
  induction content as [|block rest IH]; intros s.
  - constructor.
  - rewrite toolResultsFor_cons. apply Forall_app. split; [|apply IH].
    pose proof (toolResultsFor_one block s) as Hone.
    destruct block; try (rewrite Hone; constructor).
    destruct Hone as (text & flag & -> & Hne). constructor; [exact Hne | constructor].
Qed.

(** X8. Whatever a tool call does, the model is told something: the loop over
    the blocks of a response always completes, and every block of the user
    turn it builds is a [tool_result] whose content is not empty (the text
    of the result, the serialized result, or ["Error: "] and a message). *)
Theorem tool_results_are_never_empty (content : list Block) (s : Process) :
  exists toolResults,
    (Server.forBlocks content [] s).1 = Returned toolResults
    /\ Forall (fun block =>
                 match block with
                 | ToolResult _ text _ => text <> ""
                 | _ => False
                 end)
              toolResults.
Proof.
  destruct (forBlocks_returns content s) as (added & s' & Hreturns & _).
  pose proof (toolResultsFor_nonempty content s) as Hall.
  unfold toolResultsFor in Hall.
  rewrite (Hreturns []) in *. cbn [fst app] in *.
  exists added. split; [reflexivity | exact Hall].
Qed.

End ResultContent.

(** * The web search of the serverless researcher *)

Section Search.
Context `{Platform}.

(** [braveSearch], by the way the request goes. *)
Lemma braveSearch_spec query s :
  Part000.braveSearch query s
  = match process_env s !! "BRAVE_API_KEY" with
    | None => (Returned None, s)
    | Some apiKey =>
        if String.eqb apiKey "" then (Returned None, s)
        else
          let r := fetch (searchUrl query) (searchHeaders apiKey) (world s) in
          let failed error :=
            (Returned None,
             (write (console_error ["Brave Search error:"; message error])
                    (setWorld r.2 s)).2) in
          match r.1 with
          | Rejected error => failed error
          | Fulfilled response =>
              if negb (FetchResponse.ok response) then
                (Returned None,
                 (write (console_error ["Brave Search error:";
                                        pretty (FetchResponse.status response)])
                        (setWorld r.2 s)).2)
              else
                match FetchResponse.json response with
                | inl error => failed error
                | inr data =>
                    match Part000.webResults data with
                    | inl error => failed error
                    | inr found => (Returned found, setWorld r.2 s)
                    end
                end
          end
    end.
Proof.
  unfold Part000.braveSearch, mbind, M_bind, getProcess, searchUrl, searchHeaders.
  destruct (process_env s !! "BRAVE_API_KEY") as [apiKey|]; [|reflexivity].
  destruct (String.eqb apiKey ""); [reflexivity|].
  unfold try_catch, mbind, M_bind, await. cbv zeta.
  destruct (fetch _ _ (world s)) as [[response|error] w]; cbn [fst snd settle];
    [|reflexivity].
  destruct (FetchResponse.ok response); cbn [negb]; [|reflexivity].
  unfold liftE.
  destruct (FetchResponse.json response) as [error|data]; [reflexivity|].
  unfold mret, M_ret.
  destruct (Part000.webResults data) as [error|found]; reflexivity.
Qed.

Lemma braveSearch_frame query s :
  exists found,
    (Part000.braveSearch query s).1 = Returned found
    /\ calls (Part000.braveSearch query s).2 = calls s
    /\ registryKept s (Part000.braveSearch query s).2.
Proof.
  rewrite braveSearch_spec.
  destruct (process_env s !! "BRAVE_API_KEY") as [apiKey|];
    [|exists None; repeat split].
  destruct (String.eqb apiKey ""); [exists None; repeat split|].
  cbv zeta.
  destruct (fetch (searchUrl query) (searchHeaders apiKey) (world s))
    as [[response|error] w]; cbn [fst snd]; [|exists None; repeat split].
  destruct (FetchResponse.ok response); cbn [negb]; [|exists None; repeat split].
  destruct (FetchResponse.json response) as [error|data]; [exists None; repeat split|].
  destruct (Part000.webResults data) as [error|found];
    [exists None | exists found]; repeat split.
Qed.

(** X9. [braveSearch] never throws: a missing key, a rejected or unsuccessful
    request, a body that is not JSON or has no [web.results] all give
    [null]. Without a key (unset or empty) nothing is requested and the
    process is left as it was. Results are returned only for a successful
    response whose body holds them; the model is never called and the
    registry never touched. *)
Theorem braveSearch_is_contained (query : string) (s : Process) :
  let run := Part000.braveSearch query s in
  (exists found,
      run.1 = Returned found
      /\ match found with
         | None => True
         | Some results =>
             exists apiKey response data,
               process_env s !! "BRAVE_API_KEY" = Some apiKey
               /\ apiKey <> ""
               /\ (fetch (searchUrl query) (searchHeaders apiKey) (world s)).1
                  = Fulfilled response
               /\ FetchResponse.ok response = true
               /\ FetchResponse.json response = inr data
               /\ Part000.webResults data = inr (Some results)
         end)
  /\ calls run.2 = calls s
  /\ registryKept s run.2
  /\ match process_env s !! "BRAVE_API_KEY" with
     | None | Some "" => run = (Returned None, s)
     | Some _ => True
     end.
Proof.
  cbv zeta. rewrite braveSearch_spec.
  destruct (process_env s !! "BRAVE_API_KEY") as [apiKey|] eqn:Hkey.
  2: { split; [exists None; auto|]. repeat split. }
  destruct (String.eqb_spec apiKey "") as [->|Hne].
  { split; [exists None; auto|]. repeat split. }
  assert (Hlast : match apiKey with "" => True | String _ _ => True end)
    by (destruct apiKey; exact I).
  cbv zeta.
  destruct (fetch (searchUrl query) (searchHeaders apiKey) (world s))
    as [[response|error] w] eqn:Hfetch; cbn [fst snd].
  2: { split; [exists None; auto|]. split; [reflexivity|]. split; [repeat split|].
       destruct apiKey; [contradiction | exact I]. }
  destruct (FetchResponse.ok response) eqn:Hok; cbn [negb].
  2: { split; [exists None; auto|]. split; [reflexivity|]. split; [repeat split|].
       destruct apiKey; [contradiction | exact I]. }
  destruct (FetchResponse.json response) as [error|data] eqn:Hjson.
  { split; [exists None; auto|]. split; [reflexivity|]. split; [repeat split|].
    destruct apiKey; [contradiction | exact I]. }
  destruct (Part000.webResults data) as [error|found] eqn:Hweb.
  { split; [exists None; auto|]. split; [reflexivity|]. split; [repeat split|].
    destruct apiKey; [contradiction | exact I]. }
  split; [|split; [reflexivity|split; [repeat split|]]].
  - exists found. split; [reflexivity|]. destruct found as [results|]; [|exact I].
    exists apiKey, response, data. repeat split; auto; try (rewrite Hfetch); reflexivity.
  - destruct apiKey; [contradiction | exact I].
Qed.

(** X10. The researcher of the Brave-search variant calls the model once, with
    no tools. Its last message is the user message, replaced by the prompt
    built from the search results only when the search returned at least
    one result; when the search gives nothing the request is the one the
    other agents send. *)
Theorem researcher_falls_back_to_plain_message (userMessage : string)
    (previousContext : option string) (s : Process) :
  let found := Part000.braveSearch userMessage s in
  let run := Part000.callClaudeAgent "researcher" userMessage previousContext s in
  let sent :=
    match found.1 with
    | Returned (Some (r :: rest)) => Part000.enrich userMessage (r :: rest)
    | _ => userMessage
    end in
  exists request settled,
    calls run.2 = calls s ++ [(request, settled)]
    /\ request
       = Request.mk "claude-sonnet-4-20250514" 4096 (Part000.agentPrompts "researcher")
                    (seedMessages sent previousContext) None
    /\ run.1 = match settled with
               | Fulfilled response =>
                   Returned (String.concat newline (textsOf (Response.content response)))
               | Rejected e => Thrown e
               end.
Proof.
  cbv zeta.
  destruct (braveSearch_frame userMessage s) as (found & Hfound & Hcalls & _).
  unfold Part000.callClaudeAgent.
  change (String.eqb "researcher" "researcher") with true. cbv iota.
  unfold mbind, M_bind, messages_create, seedMessages.
  destruct (Part000.braveSearch userMessage s) as [o s1]. cbn [fst snd] in *.
  subst o.
  destruct found as [[|r rest]|]; unfold mret, M_ret; cbn [fst snd];
    (destruct previousContext as [c|]; [destruct (String.eqb c "")|]);
    cbn [app fst snd];
    destruct (anthropic_messages_create _ (world s1)) as [[response|e] w];
    eexists _, _; cbn [fst snd calls settle]; rewrite Hcalls;
    (split; [reflexivity|]); (split; [reflexivity|]); try reflexivity;
    f_equal; apply (joinText_textsOf (Response.content response)).
Qed.

End Search.

(** * The query in the search URL *)

Section Encoding.

Lemma charsOf_append (a b : string) : charsOf (a +:+ b) = charsOf a ++ charsOf b.
Proof.
  induction a as [|c a IH]; [reflexivity|].
  change (c :: charsOf (a +:+ b) = c :: (charsOf a ++ charsOf b)). f_equal. exact IH.
Qed.

Lemma upperHex_unreserved (c : ascii) :
  Part000.isUnreserved (Part000.upperHex (nat_of_ascii c / 16)) = true
  /\ Part000.isUnreserved (Part000.upperHex (nat_of_ascii c mod 16)) = true.
Proof. destruct c as [[] [] [] [] [] [] [] []]; split; vm_compute; reflexivity. Qed.

(** X11. The query is escaped before it goes into the search URL: every
    character of the encoded query is an unreserved character or the [%] of
    an escape, so a query cannot add a parameter ([&], [=]), a fragment
    ([#]) or a space to the URL; and a query made of unreserved characters
    only is sent as it is. *)
Theorem encoded_query_is_url_safe (query : string) :
  Forall (fun c => urlSafe c = true) (charsOf (Part000.encodeURIComponent query))
  /\ forallb (fun c => negb (urlSafe c)) (charsOf "&=#? /+") = true
  /\ (forallb Part000.isUnreserved (charsOf query) = true ->
      Part000.encodeURIComponent query = query).
Proof.
  split; [|split; [vm_compute; reflexivity|]].
  - induction query as [|c rest IH]; [constructor|].
    cbn [Part000.encodeURIComponent]. rewrite charsOf_append.
    apply Forall_app. split; [|exact IH].
    destruct (Part000.isUnreserved c) eqn:Hc.
    + constructor; [|constructor]. unfold urlSafe. rewrite Hc. reflexivity.
    + destruct (upperHex_unreserved c) as [Hhi Hlo].
      repeat constructor; unfold urlSafe; rewrite ?Hhi, ?Hlo; reflexivity.
  - induction query as [|c rest IH]; intros Hsafe; [reflexivity|].
    cbn [charsOf forallb] in Hsafe. apply andb_true_iff in Hsafe as [Hc Hrest].
    cbn [Part000.encodeURIComponent]. rewrite Hc, IH by exact Hrest. reflexivity.
Qed.

End Encoding.

(** A query with a space and an ampersand is escaped; a plain word is not. *)
Lemma encoded_query_example :
  Part000.encodeURIComponent "quantum" = "quantum"
  /\ Part000.encodeURIComponent "a b&c" = "a%20b%26c".
Proof.
  split; [|vm_compute; reflexivity].
  apply (proj2 (proj2 (encoded_query_is_url_safe "quantum"))).
  vm_compute. reflexivity.
Defined.

(** * The HTTP handlers *)

Section Handlers.
Context `{Platform}.

(** X12. A serverless handler never throws and always answers with the CORS
    headers. It answers 204 to [OPTIONS], 405 to any other method than
    [POST], and 400 to a body without agent or message or with an unknown
    agent, each time with the fixed body of the source, without running the
    agent and without changing the process. A [POST] without body is
    answered 500 with the message of the failed destructuring, which is
    also written to the console, and nothing else changes. Otherwise the
    agent runs: 200 carries its result, 500 the message of the error it
    threw, which is written to the console. *)
Theorem serverless_handler_answers
    (agentPrompts : string -> option string)
    (callClaudeAgent : string -> string -> option string -> M string)
    (method : string) (body : option Body.t) (s : Process) :
  let run := Serverless.handler agentPrompts callClaudeAgent method body s in
  let failure (text : string) := JObj [("error", JStr text)] in
  let logged (text : string) (s0 : Process) :=
    (write (console_error ["Error calling Claude:"; text]) s0).2 in
  let noBody := "Cannot destructure property 'agent' of 'req.body' as it is undefined." in
  match run.1 with
  | Returned response =>
      HttpResponse.headers response = Serverless.corsHeaders
      /\ ((method = "OPTIONS"
           /\ response = HttpResponse.mk 204 Serverless.corsHeaders None
           /\ run.2 = s)
          \/ (method <> "OPTIONS" /\ method <> "POST"
              /\ response = Serverless.json 405 (failure "Method not allowed")
              /\ run.2 = s)
          \/ (method = "POST" /\ body = None
              /\ response = Serverless.json 500 (failure noBody)
              /\ run.2 = logged noBody s)
          \/ (method = "POST"
              /\ (exists fields,
                     body = Some fields
                     /\ falsy (Body.agent fields) || falsy (Body.message fields) = true)
              /\ response = Serverless.json 400 (failure "Missing agent or message")
              /\ run.2 = s)
          \/ (method = "POST"
              /\ (exists agent text context,
                     body = Some (Body.mk (Some agent) (Some text) context)
                     /\ agent <> "" /\ text <> ""
                     /\ noPrompt agentPrompts agent = true)
              /\ response = Serverless.json 400 (failure "Invalid agent type")
              /\ run.2 = s)
          \/ (exists agent text context,
                 method = "POST"
                 /\ body = Some (Body.mk (Some agent) (Some text) context)
                 /\ agent <> "" /\ text <> ""
                 /\ noPrompt agentPrompts agent = false
                 /\ match (callClaudeAgent agent text context s).1 with
                    | Returned result =>
                        response
                        = Serverless.json 200 (JObj [("result", JStr result)])
                        /\ run.2 = (callClaudeAgent agent text context s).2
                    | Thrown e =>
                        response = Serverless.json 500 (failure (message e))
                        /\ run.2
                           = logged (message e) (callClaudeAgent agent text context s).2
                    | OutOfFuel => False
                    end))
  | Thrown _ => False
  | OutOfFuel =>
      exists agent text context,
        method = "POST"
        /\ body = Some (Body.mk (Some agent) (Some text) context)
        /\ noPrompt agentPrompts agent = false
        /\ (callClaudeAgent agent text context s).1 = OutOfFuel
  end.
Proof.
  cbv zeta. unfold Serverless.handler.
  unfold try_catch, mbind, M_bind, throw, mret, M_ret.
  destruct (String.eqb_spec method "OPTIONS") as [->|Hoptions].
  { cbn. split; [reflexivity|]. left. auto. }
  destruct (String.eqb_spec method "POST") as [->|Hpost]; cbn [negb].
  2: { cbn. split; [reflexivity|]. right. left. auto. }
  destruct body as [[agent text context]|]; cbn [Body.agent Body.message Body.context].
  2: { cbn [fst snd]. split; [reflexivity|]. do 2 right. left. auto. }
  destruct (falsy agent || falsy text) eqn:Hfalsy.
  { cbn [fst snd]. split; [reflexivity|]. do 3 right. left.
    split; [reflexivity|]. split; [|auto].
    eexists. split; [reflexivity|]. exact Hfalsy. }
  apply orb_false_iff in Hfalsy as [Hagent Htext].
  destruct agent as [agent|]; [|discriminate Hagent].
  destruct text as [text|]; [|discriminate Htext].
  cbn [falsy] in Hagent, Htext.
  apply String.eqb_neq in Hagent, Htext.
  cbv zeta. cbn [default from_option]. unfold id.
  destruct (noPrompt agentPrompts agent) eqn:Hprompt.
  { cbn [fst snd]. split; [reflexivity|]. do 4 right. left.
    split; [reflexivity|]. split; [|auto].
    exists agent, text, context. auto. }
  destruct (callClaudeAgent agent text context s) as [[result|e|] s'] eqn:Hrun;
    cbn [fst snd].
  - split; [reflexivity|]. do 5 right. exists agent, text, context.
    rewrite Hrun. cbn [fst snd]. auto 10.
  - split; [reflexivity|]. do 5 right. exists agent, text, context.
    rewrite Hrun. cbn [fst snd]. auto 10.
  - exists agent, text, context. rewrite Hrun. auto.
Qed.


End Handlers.

(** * When the extraction of the text throws *)

Section Extractable.

Lemma segmentText_chars (s : string) : omap segmentText (chars s) = [].
Proof. induction s as [|c s IH]; [reflexivity | exact IH]. Qed.

Lemma forItems_chars (s : string) : forall textContent,
  Server.forItems (chars s) textContent = inr textContent.
Proof. induction s as [|c s IH]; intros textContent; [reflexivity | apply IH]. Qed.

Lemma forItems_no_null items : forall textContent,
  forallb (fun item => negb (isNull item)) items = true ->
  Server.forItems items textContent
  = inr (textContent +:+ String.concat "" (omap segmentText items)).
Proof.
  induction items as [|item rest IH]; intros textContent Hitems.
  - cbn [Server.forItems omap list_omap String.concat]. rewrite append_nil_r.
    reflexivity.
  - cbn [forallb] in Hitems. apply andb_true_iff in Hitems as [Hitem Hrest].
    destruct item as [| | | | |fields]; try discriminate Hitem;
      try (cbn [Server.forItems getProp Server.isTextItem omap list_omap segmentText];
           apply IH; exact Hrest).
    cbn [Server.forItems getProp omap list_omap segmentText].
    destruct (Server.isTextItem (lookupField "type" fields)).
    + rewrite IH by exact Hrest. rewrite concat_cons, append_assoc. reflexivity.
    + apply IH. exact Hrest.
Qed.

Lemma forItems_null items : forall textContent,
  forallb (fun item => negb (isNull item)) items = false ->
  exists e, Server.forItems items textContent = inl e.
Proof.
  induction items as [|item rest IH]; intros textContent Hitems; [discriminate|].
  cbn [forallb] in Hitems.
  destruct item as [| | | | |fields];
    try (cbn [Server.forItems getProp]; eauto; fail);
    cbn [isNull negb andb] in Hitems;
    cbn [Server.forItems getProp Server.isTextItem];
    try (apply IH; exact Hitems).
  destruct (Server.isTextItem (lookupField "type" fields)); apply IH; exact Hitems.
Qed.

(** X14. The extraction of the text of a tool result throws exactly on [null],
    on a [content] that is truthy but neither an array nor a string, and on
    an array that holds a [null] item; on every other result it yields the
    concatenation of the text-typed segments (the empty string when there
    are none). *)
Theorem extraction_throws_exactly_on_malformed_results (result : Json) :
  if extractable result
  then Server.extractText result = inr (String.concat "" (textSegments result))
  else exists e, Server.extractText result = inl e.
Proof.
  unfold extractable, Server.extractText, textSegments.
  destruct result as [|b|z|s|items|fields]; cbn [getProp truthy]; eauto.
  destruct (lookupField "content" fields) as [content|]; [|reflexivity].
  destruct content as [|b|z|s|items|inner]; cbn [truthy default iterate negb].
  - reflexivity.
  - destruct b; [eauto | reflexivity].
  - destruct (Z.eqb z 0); cbn [negb]; [reflexivity | eauto].
  - destruct (String.eqb s ""); cbn [negb]; [reflexivity|].
    change (Server.forItems (chars s) "" = inr "").
    apply forItems_chars.
  - destruct (forallb (fun item => negb (isNull item)) items) eqn:Hitems.
    + change (Server.forItems items ""
              = inr (String.concat "" (omap segmentText items))).
      rewrite forItems_no_null by exact Hitems. reflexivity.
    + change (exists e, Server.forItems items "" = inl e).
      apply forItems_null. exact Hitems.
  - eauto.
Qed.

End Extractable.

(** * The serverless handlers always answer *)

Section ServerlessCalls.
Context `{Platform}.

Lemma part000_once agentType userMessage previousContext s :
  exists request settled,
    calls (Part000.callClaudeAgent agentType userMessage previousContext s).2
    = calls s ++ [(request, settled)]
    /\ Request.tools request = None
    /\ (Part000.callClaudeAgent agentType userMessage previousContext s).1
       = match settled with
         | Fulfilled response => Returned (Server.joinText (Response.content response))
         | Rejected e => Thrown e
         end.
Proof.
  destruct (String.eqb_spec agentType "researcher") as [->|Hother].
  - destruct (braveSearch_frame userMessage s) as (found & Hfound & Hcalls & _).
    unfold Part000.callClaudeAgent.
    change (String.eqb "researcher" "researcher") with true. cbv iota.
    unfold mbind, M_bind, messages_create.
    destruct (Part000.braveSearch userMessage s) as [o s1]. cbn [fst snd] in *.
    subst o.
    destruct found as [[|r rest]|]; unfold mret, M_ret; cbn [fst snd];
      destruct (anthropic_messages_create _ (world s1)) as [[response|e] w];
      eexists _, _; cbn [fst snd calls settle]; rewrite Hcalls;
      (split; [reflexivity|]); (split; [reflexivity|]); reflexivity.
  - rewrite part000_spec by exact Hother. cbv zeta.
    eexists _, _. cbn [fst snd calls]. split; [reflexivity|]. split; [reflexivity|].
    destruct (anthropic_messages_create _ (world s)) as [[response|e] w]; reflexivity.
Qed.

Lemma apiAgent_once agentType userMessage previousContext s :
  exists request settled,
    calls (ApiAgent.callClaudeAgent agentType userMessage previousContext s).2
    = calls s ++ [(request, settled)]
    /\ Request.tools request = None
    /\ (ApiAgent.callClaudeAgent agentType userMessage previousContext s).1
       = match settled with
         | Fulfilled response => Returned (Server.joinText (Response.content response))
         | Rejected e => Thrown e
         end.
Proof.
  rewrite apiAgent_spec. cbv zeta.
  eexists _, _. cbn [fst snd calls]. split; [reflexivity|]. split; [reflexivity|].
  destruct (anthropic_messages_create _ (world s)) as [[response|e] w]; reflexivity.
Qed.

Lemma serverless_once
    (agentPrompts : string -> option string)
    (callClaudeAgent : string -> string -> option string -> M string) :
  (forall agentType userMessage previousContext s,
      exists request settled,
        calls (callClaudeAgent agentType userMessage previousContext s).2
        = calls s ++ [(request, settled)]
        /\ Request.tools request = None
        /\ (callClaudeAgent agentType userMessage previousContext s).1
           = match settled with
             | Fulfilled response =>
                 Returned (Server.joinText (Response.content response))
             | Rejected e => Thrown e
             end) ->
  forall method body s,
    exists response exchanges,
      (Serverless.handler agentPrompts callClaudeAgent method body s).1
      = Returned response
      /\ calls (Serverless.handler agentPrompts callClaudeAgent method body s).2
         = calls s ++ exchanges
      /\ length exchanges <= 1
      /\ Forall (fun x => Request.tools x.1 = None) exchanges.
Proof.
  intros Honce method body s. unfold Serverless.handler.
  unfold try_catch, mbind, M_bind, throw, mret, M_ret, write.
  assert (Hnone : forall response,
             exists (response' : HttpResponse.t)
                    (exchanges : list (Request.t * Settled Response.t)),
               Returned response = Returned response'
               /\ calls s = calls s ++ exchanges
               /\ length exchanges <= 1
               /\ Forall (fun x => Request.tools x.1 = None) exchanges).
  { intros response. exists response, []. rewrite app_nil_r.
    repeat split; [simpl; lia | constructor]. }
  destruct (String.eqb method "OPTIONS"); [apply Hnone|].
  destruct (String.eqb method "POST"); cbn [negb]; [|apply Hnone].
  destruct body as [[agent text context]|];
    cbn [Body.agent Body.message Body.context fst snd calls]; [|apply Hnone].
  destruct (falsy agent || falsy text); [apply Hnone|].
  cbv zeta.
  destruct (noPrompt agentPrompts (default "" agent)); [apply Hnone|].
  destruct (Honce (default "" agent) (default "" text) context s)
    as (request & settled & Hcalls & Htools & Hout).
  destruct (callClaudeAgent (default "" agent) (default "" text) context s) as [o s'].
  cbn [fst snd] in *. subst o.
  destruct settled as [response|e]; cbn [fst snd calls];
    eexists _, [(request, _)]; (split; [reflexivity|]); (split; [exact Hcalls|]);
    (split; [simpl; lia|]); constructor; auto.
Qed.

(** X15. Both serverless handlers always answer: whatever the request and the
    model, they return a response after at most one call of the model,
    made without tools; they never wait for a tool-use loop. *)
Theorem serverless_handlers_always_answer (method : string) (body : option Body.t)
    (s : Process) :
  (exists response exchanges,
      (apiHandler method body s).1 = Returned response
      /\ calls (apiHandler method body s).2 = calls s ++ exchanges
      /\ length exchanges <= 1
      /\ Forall (fun x => Request.tools x.1 = None) exchanges)
  /\ (exists response exchanges,
         (searchHandler method body s).1 = Returned response
         /\ calls (searchHandler method body s).2 = calls s ++ exchanges
         /\ length exchanges <= 1
         /\ Forall (fun x => Request.tools x.1 = None) exchanges).
Proof.
  split.
  - apply serverless_once. intros. apply apiAgent_once.
  - apply serverless_once. intros. apply part000_once.
Qed.

End ServerlessCalls.

(** On [searchPlatform] the search finds two results, and the researcher's
    message is the prompt built from them. *)
Lemma researcher_search_example :
  let s := @start searchPlatform 0 {[ "BRAVE_API_KEY" := "key" ]} in
  let run := @Part000.callClaudeAgent searchPlatform "researcher" "quantum" None s in
  exists request settled results,
    @calls searchPlatform run.2 = [(request, settled)]
    /\ length results = 2
    /\ Request.messages request
       = [Message.mk user (Plain (Part000.enrich "quantum" results))].
Proof.
  cbv zeta.
  destruct (@researcher_falls_back_to_plain_message searchPlatform "quantum" None
              (@start searchPlatform 0 {[ "BRAVE_API_KEY" := "key" ]}))
    as (request & settled & Hcalls & Hrequest & _).
  assert (Hfound : exists r1 r2,
             (@Part000.braveSearch searchPlatform "quantum"
                (@start searchPlatform 0 {[ "BRAVE_API_KEY" := "key" ]})).1
             = Returned (Some [r1; r2]))
    by (vm_compute; eexists _, _; reflexivity).
  destruct Hfound as (r1 & r2 & Hfound).
  rewrite Hfound in Hrequest.
  exists request, settled, [r1; r2].
  split; [exact Hcalls|]. split; [reflexivity|].
  rewrite Hrequest. reflexivity.
Defined.
